(** * Nutrition app: the meal-planning client and the kitchen dashboard

    A shallow embedding of the React front end (App.tsx and the kitchen
    dashboard component) together with the properties of the nutrition
    engine that the client relies on.

    Conventions used throughout:
    - a React state hook is a field of a state record, and a functional
      update [setX(prev => ...)] is a pure function on that field;
    - an [async] handler that awaits one [fetch] is split at the await:
      the part before it decides whether a request is issued, the part
      after it consumes the response, which is an input of the model;
    - JavaScript numbers are the type [number] below: exact rationals
      extended with the two infinities and NaN (rounding is not modelled,
      the client performs no arithmetic on them, only comparisons);
    - an object literal filled with arrays is the finite map of its own
      properties, read through the names it inherits from
      [Object.prototype]; a loop or a render that throws is [None]. *)

From Stdlib Require Import QArith Qabs Ascii String.
From stdpp Require Import base list gmap strings pretty.

Local Open Scope string_scope.
Local Open Scope list_scope.
Local Open Scope Z_scope.

(** ** JavaScript numbers *)

Module JS.

Inductive number : Type :=
  | NaN
  | NegInf
  | Fin (q : Q)
  | PosInf.

Definition isNaN (x : number) : bool :=
  match x with NaN => true | _ => false end.

(** [x < y] *)
Definition lt (x y : number) : bool :=
  match x, y with
  | NaN, _ | _, NaN => false
  | NegInf, NegInf => false
  | NegInf, _ => true
  | _, NegInf => false
  | PosInf, _ => false
  | Fin _, PosInf => true
  | Fin a, Fin b => match Qcompare a b with Lt => true | _ => false end
  end.

(** [x > y] *)
Definition gt (x y : number) : bool := lt y x.

(** [x === y] on numbers *)
Definition strict_eq (x y : number) : bool :=
  match x, y with
  | NegInf, NegInf | PosInf, PosInf => true
  | Fin a, Fin b => match Qcompare a b with Eq => true | _ => false end
  | _, _ => false
  end.

(** [x <= y] *)
Definition le (x y : number) : bool := lt x y || strict_eq x y.

Definition zero : number := Fin 0.

(** [a || b] on strings, where [a] may be undefined: the first operand
    unless it is falsy (undefined or the empty string). *)
Definition or_else (a : option string) (b : string) : string :=
  match a with
  | Some s => if decide (s = "") then b else s
  | None => b
  end.

(** ** Plain objects used as maps to arrays

    An object literal [{}] that the code fills with arrays is the finite
    map of its own properties.  A property read also sees what every
    plain object inherits from [Object.prototype]: under one of the names
    below it finds a function (under [__proto__] the prototype object),
    which is truthy and has no [push]. *)

Definition objectPrototypeKeys : list string :=
  ["constructor"; "__defineGetter__"; "__defineSetter__"; "hasOwnProperty";
   "__lookupGetter__"; "__lookupSetter__"; "isPrototypeOf";
   "propertyIsEnumerable"; "toString"; "valueOf"; "__proto__";
   "toLocaleString"].

Definition inherited (key : string) : bool :=
  existsb (String.eqb key) objectPrototypeKeys.

(** What [obj[key]] evaluates to. *)
Inductive Slot (A : Type) : Type :=
  | OwnArray (elements : list A)   (* an own property: truthy, even when empty *)
  | FromPrototype                  (* inherited: truthy, not an array *)
  | Undefined.                     (* falsy *)

Arguments OwnArray {A} elements.
Arguments FromPrototype {A}.
Arguments Undefined {A}.

Definition read {A : Type} (obj : gmap string (list A)) (key : string) : Slot A :=
  match obj !! key with
  | Some elements => OwnArray elements
  | None => if inherited key then FromPrototype else Undefined
  end.

(** No own property of the object hides an inherited name. *)
Definition shadow_free {A : Type} (obj : gmap string (list A)) : Prop :=
  forall key, inherited key = true -> obj !! key = None.

(** [xs.forEach(x => ...)] and [xs.reduce(step, start)] with a callback
    that may throw: [None] is the exception, which ends the loop at the
    first element that raises it. *)
Fixpoint foldThrowing {St A : Type} (step : St -> A -> option St) (start : St)
    (xs : list A) : option St :=
  match xs with
  | [] => Some start
  | x :: rest =>
      match step start x with
      | Some next => foldThrowing step next rest
      | None => None
      end
  end.

End JS.

Import JS.

(** ** The kitchen dashboard *)

Module KitchenDashboard.

Record MealPlanItem : Type := mkItem {
  id : Z;
  meal_category : string;
  food_name : string;
  quantity : number;
  prepared : bool;
  delivered : bool
}.

Record PatientRef : Type := mkPatientRef {
  patient_id : Z;
  hospital_id : string;
  name : string;
  age : Z;
  sex : string
}.

Record MealPlan : Type := mkPlan {
  plan_id : Z;
  timestamp : string;
  patient : option PatientRef;
  items : list MealPlanItem
}.

(** *** DashboardSummary *)

Record SummaryEntry : Type := mkEntry {
  planId : Z;
  mealCategory : string;
  foodName : string
}.

Definition entry (plan : MealPlan) (item : MealPlanItem) : SummaryEntry :=
  {| planId := plan_id plan;
     mealCategory := meal_category item;
     foodName := food_name item |}.

(** [mealPlans.flatMap(plan => plan.items.filter(keep).map(entry))] *)
Definition collect (keep : MealPlanItem -> bool) (mealPlans : list MealPlan)
  : list SummaryEntry :=
  flat_map (fun plan => map (entry plan) (List.filter keep (items plan)))
           mealPlans.

Record Summary : Type := mkSummary {
  preparedItems : list SummaryEntry;
  deliveredItems : list SummaryEntry;
  unpreparedItems : list SummaryEntry;
  notDeliveredItems : list SummaryEntry
}.

Definition summary (mealPlans : list MealPlan) : Summary :=
  {| preparedItems := collect (fun item => prepared item) mealPlans;
     deliveredItems := collect (fun item => delivered item) mealPlans;
     unpreparedItems := collect (fun item => negb (prepared item)) mealPlans;
     notDeliveredItems := collect (fun item => negb (delivered item)) mealPlans |}.

(** Every item of every plan, as the summary would list it. *)
Definition allEntries (mealPlans : list MealPlan) : list SummaryEntry :=
  flat_map (fun plan => map (entry plan) (items plan)) mealPlans.

(** *** groupedMealItems (the view by meal category) *)

Record GroupedItem : Type := mkGrouped {
  item : MealPlanItem;            (* the spread [...item] *)
  patientName : string;
  patientHospitalId : string
}.

Definition augment (p : PatientRef) (it : MealPlanItem) : GroupedItem :=
  {| item := it; patientName := name p; patientHospitalId := hospital_id p |}.

(** The body of the inner [forEach]: create the group when what the key
    reads is falsy, then push to what the key reads.  Under a name that
    the object inherits the read is truthy, no group is created, and the
    call of [push] on the inherited value is a TypeError. *)
Definition push_item (p : PatientRef) (grouped : gmap string (list GroupedItem))
    (it : MealPlanItem) : option (gmap string (list GroupedItem)) :=
  let grouped1 :=
    match read grouped (meal_category it) with
    | Undefined => <[meal_category it := []]> grouped
    | OwnArray _ | FromPrototype => grouped
    end in
  match read grouped1 (meal_category it) with
  | OwnArray group => Some (<[meal_category it := group ++ [augment p it]]> grouped1)
  | FromPrototype | Undefined => None
  end.

(** The body of the outer [forEach]: only a plan with a patient is
    looked at. *)
Definition add_plan (grouped : gmap string (list GroupedItem)) (plan : MealPlan)
  : option (gmap string (list GroupedItem)) :=
  match patient plan with
  | Some p => foldThrowing (push_item p) grouped (items plan)
  | None => Some grouped
  end.

(** The value of the [useMemo]; [None] when computing it throws. *)
Definition groupedMealItems (mealPlans : list MealPlan)
  : option (gmap string (list GroupedItem)) :=
  foldThrowing add_plan ∅ mealPlans.

(** The item is grouped under a name that a plain object does not
    inherit. *)
Definition ordinary (it : MealPlanItem) : Prop :=
  inherited (meal_category it) = false.

(** No item that the view by meal category has to group has an inherited
    name as its category. *)
Definition own_keys_only (mealPlans : list MealPlan) : Prop :=
  forall plan it,
    In plan mealPlans -> is_Some (patient plan) -> In it (items plan) ->
    ordinary it.

(** The entries of group [c], the empty list when there is no such key. *)
Definition group (grouped : gmap string (list GroupedItem)) (c : string)
  : list GroupedItem :=
  default [] (grouped !! c).

(** What one plan adds to group [c]: used to state what the view holds. *)
Definition contribution (c : string) (plan : MealPlan) : list GroupedItem :=
  match patient plan with
  | Some p =>
      map (augment p)
          (List.filter (fun it => bool_decide (meal_category it = c)) (items plan))
  | None => []
  end.

(** *** handleStatusChange *)

Inductive StatusField : Type := Prepared | Delivered.

(** [{ ...item, [type]: newStatus }] *)
Definition set_status (type : StatusField) (newStatus : bool)
    (it : MealPlanItem) : MealPlanItem :=
  match type with
  | Prepared =>
      {| id := id it; meal_category := meal_category it;
         food_name := food_name it; quantity := quantity it;
         prepared := newStatus; delivered := delivered it |}
  | Delivered =>
      {| id := id it; meal_category := meal_category it;
         food_name := food_name it; quantity := quantity it;
         prepared := prepared it; delivered := newStatus |}
  end.

Definition get_status (type : StatusField) (it : MealPlanItem) : bool :=
  match type with Prepared => prepared it | Delivered => delivered it end.

Definition other (type : StatusField) : StatusField :=
  match type with Prepared => Delivered | Delivered => Prepared end.

(** What the PATCH request came back with. *)
Inductive PatchResponse : Type :=
  | PatchOk
  | PatchNotOk (detail : option string) (statusText : string)
  | PatchThrew (err : string).

Inductive DisplayMode : Type := patientView | timeView.

Record Dashboard : Type := mkDashboard {
  mealPlans : list MealPlan;
  loading : bool;
  error : option string;
  selectedDate : string;
  displayMode : DisplayMode
}.

(** [item.id === itemId ? { ...item, [type]: newStatus } : item] *)
Definition update_item (itemId : Z) (type : StatusField) (newStatus : bool)
    (it : MealPlanItem) : MealPlanItem :=
  if id it =? itemId then set_status type newStatus it else it.

(** [{ ...plan, items: plan.items.map(...) }] *)
Definition update_plan (itemId : Z) (type : StatusField) (newStatus : bool)
    (plan : MealPlan) : MealPlan :=
  {| plan_id := plan_id plan; timestamp := timestamp plan;
     patient := patient plan;
     items := map (update_item itemId type newStatus) (items plan) |}.

Definition update_plans (itemId : Z) (type : StatusField) (newStatus : bool)
    (prevPlans : list MealPlan) : list MealPlan :=
  map (update_plan itemId type newStatus) prevPlans.

Definition handleStatusChange (itemId : Z) (type : StatusField)
    (newStatus : bool) (response : PatchResponse) (s : Dashboard) : Dashboard :=
  match response with
  | PatchOk =>
      {| mealPlans := update_plans itemId type newStatus (mealPlans s);
         loading := loading s; error := error s;
         selectedDate := selectedDate s; displayMode := displayMode s |}
  | PatchNotOk detail statusText =>
      {| mealPlans := mealPlans s; loading := loading s;
         error := Some ("Failed to update status for item " +:+ pretty itemId
                        +:+ ": " +:+ or_else detail statusText);
         selectedDate := selectedDate s; displayMode := displayMode s |}
  | PatchThrew err =>
      {| mealPlans := mealPlans s; loading := loading s;
         error := Some ("Network error updating status: " +:+ err);
         selectedDate := selectedDate s; displayMode := displayMode s |}
  end.

(** One click on a status checkbox, with the answer it got. *)
Record StatusUpdate : Type := mkUpdate {
  upd_item : Z;
  upd_type : StatusField;
  upd_status : bool;
  upd_response : PatchResponse
}.

Definition apply_update (s : Dashboard) (u : StatusUpdate) : Dashboard :=
  handleStatusChange (upd_item u) (upd_type u) (upd_status u) (upd_response u) s.

Definition run (updates : list StatusUpdate) (s : Dashboard) : Dashboard :=
  foldl apply_update s updates.

Definition all_items (s : Dashboard) : list MealPlanItem :=
  flat_map items (mealPlans s).

(** An item as it is when its plan is created: both flags false. *)
Definition pending (it : MealPlanItem) : Prop :=
  prepared it = false /\ delivered it = false.

(** The flag invariant of the data model. *)
Definition delivered_implies_prepared (it : MealPlanItem) : Prop :=
  delivered it = true -> prepared it = true.

(** The flag invariant as a property of the dashboard: starting from plans
    whose items are all pending, no sequence of status updates leads to an
    item that is delivered and not prepared. *)
Definition flags_invariant_holds : Prop :=
  forall (s : Dashboard) (updates : list StatusUpdate),
    (forall it, In it (all_items s) -> pending it) ->
    forall it, In it (all_items (run updates s)) -> delivered_implies_prepared it.

(** Two items agree on everything but the two status flags. *)
Definition same_dish (it it' : MealPlanItem) : Prop :=
  id it' = id it /\ meal_category it' = meal_category it
  /\ food_name it' = food_name it /\ quantity it' = quantity it.

(** Sample data: one plan with one pending item (Breakfast, Rice, 2). *)
Definition rice_item : MealPlanItem :=
  {| id := 1; meal_category := "Breakfast"; food_name := "Rice";
     quantity := Fin 2; prepared := false; delivered := false |}.

Definition asha : PatientRef :=
  {| patient_id := 7; hospital_id := "H-007"; name := "Asha"; age := 54;
     sex := "F" |}.

Definition rice_plan : MealPlan :=
  {| plan_id := 10; timestamp := "2025-01-05T08:00:00"; patient := Some asha;
     items := [rice_item] |}.

Definition orphan_plan : MealPlan :=
  {| plan_id := 11; timestamp := "2025-01-05T09:00:00"; patient := None;
     items := [ {| id := 2; meal_category := "Lunch"; food_name := "Dal";
                   quantity := Fin 1; prepared := true; delivered := false |} ] |}.

Definition sample_dashboard : Dashboard :=
  {| mealPlans := [rice_plan; orphan_plan]; loading := false; error := None;
     selectedDate := "2025-01-05"; displayMode := patientView |}.

(** A plan of a patient with an item whose category is a name that plain
    objects inherit. *)
Definition toString_item : MealPlanItem :=
  {| id := 5; meal_category := "toString"; food_name := "Idli";
     quantity := Fin 2; prepared := false; delivered := false |}.

Definition toString_plan : MealPlan :=
  {| plan_id := 14; timestamp := "2025-01-05T11:00:00"; patient := Some asha;
     items := [toString_item] |}.

End KitchenDashboard.

(** ** The nutrition planner (App.tsx) *)

Module Planner.

Record SelectedFood : Type := mkSelected {
  food_name : string;
  quantity : number
}.

Record MenuLine : Type := mkMenuLine {
  line_food_name : string;
  line_quantity : number;
  serving_size : string
}.

(** The objects of a calculation result are kept as their entries, in
    the order in which [Object.entries] lists them; a JSON [null] value
    is [None]. *)
Record CalculationResult : Type := mkResult {
  selected_menu : list MenuLine;
  total_nutrients : list (string * option number);
  rda_profile_name : string;
  rda_targets : list (string * option number);
  nutrient_comparison : list (string * option number);
  final_summary : string
}.

Definition mealCategories : list string :=
  ["Breakfast"; "Lunch"; "Dinner"; "Morning Snacks"; "Evening Snacks"].

(** The state hooks that the menu, calculation and kitchen handlers read
    or write. *)
Record App : Type := mkApp {
  message : string;
  selectedFoods : list SelectedFood;
  selectedRdaProfile : string;
  calculationResult : option CalculationResult;
  mealPlan : gmap string (list SelectedFood);
  selectedMealCategory : string;
  selectedPatient : option Z
}.

Definition initialMealPlan : gmap string (list SelectedFood) :=
  <["Breakfast" := []]> (<["Lunch" := []]> (<["Dinner" := []]>
    (<["Morning Snacks" := []]> (<["Evening Snacks" := []]> ∅)))).

Definition initialApp : App :=
  {| message := ""; selectedFoods := []; selectedRdaProfile := "";
     calculationResult := None; mealPlan := initialMealPlan;
     selectedMealCategory := "Breakfast"; selectedPatient := None |}.

Definition setMessage (m : string) (s : App) : App :=
  {| message := m; selectedFoods := selectedFoods s;
     selectedRdaProfile := selectedRdaProfile s;
     calculationResult := calculationResult s; mealPlan := mealPlan s;
     selectedMealCategory := selectedMealCategory s;
     selectedPatient := selectedPatient s |}.

Definition setSelectedFoods (f : list SelectedFood -> list SelectedFood)
    (s : App) : App :=
  {| message := message s; selectedFoods := f (selectedFoods s);
     selectedRdaProfile := selectedRdaProfile s;
     calculationResult := calculationResult s; mealPlan := mealPlan s;
     selectedMealCategory := selectedMealCategory s;
     selectedPatient := selectedPatient s |}.

Definition setMealPlan (m : gmap string (list SelectedFood)) (s : App) : App :=
  {| message := message s; selectedFoods := selectedFoods s;
     selectedRdaProfile := selectedRdaProfile s;
     calculationResult := calculationResult s; mealPlan := m;
     selectedMealCategory := selectedMealCategory s;
     selectedPatient := selectedPatient s |}.

Definition setCalculationResult (r : option CalculationResult) (s : App) : App :=
  {| message := message s; selectedFoods := selectedFoods s;
     selectedRdaProfile := selectedRdaProfile s;
     calculationResult := r; mealPlan := mealPlan s;
     selectedMealCategory := selectedMealCategory s;
     selectedPatient := selectedPatient s |}.

Definition setSelectedMealCategory (c : string) (s : App) : App :=
  {| message := message s; selectedFoods := selectedFoods s;
     selectedRdaProfile := selectedRdaProfile s;
     calculationResult := calculationResult s; mealPlan := mealPlan s;
     selectedMealCategory := c;
     selectedPatient := selectedPatient s |}.

(** [Array.prototype.findIndex], with [None] for -1. *)
Fixpoint findIndex {A : Type} (p : A -> bool) (l : list A) : option nat :=
  match l with
  | [] => None
  | x :: l' => if p x then Some 0%nat else S <$> findIndex p l'
  end.

Definition named (foodName : string) (entry : SelectedFood) : bool :=
  String.eqb (food_name entry) foodName.

(** [{ ...entry, quantity: qty }] *)
Definition with_quantity (qty : number) (entry : SelectedFood) : SelectedFood :=
  {| food_name := food_name entry; quantity := qty |}.

Section Platform.

(** Built-ins of the host: [parseFloat] and the conversion of a number to
    a string in a template; the handlers are modelled for any such pair. *)
Variable parseFloat : string -> number.
Variable numberToString : number -> string.

(** *** Menu selection handlers *)

(** The updater passed to [setSelectedFoods]. *)
Definition changeQuantity (foodName : string) (qty : number)
    (prevSelectedFoods : list SelectedFood) : list SelectedFood :=
  match findIndex (named foodName) prevSelectedFoods with
  | Some existingIndex =>
      if strict_eq qty zero
      then delete existingIndex prevSelectedFoods
      else alter (with_quantity qty) existingIndex prevSelectedFoods
  | None =>
      if gt qty zero
      then prevSelectedFoods ++ [ {| food_name := foodName; quantity := qty |} ]
      else prevSelectedFoods
  end.

Definition handleFoodQuantityChange (foodName quantity : string) (s : App) : App :=
  let qty := parseFloat quantity in
  if isNaN qty || lt qty zero then s
  else setSelectedFoods (changeQuantity foodName qty) s.

Definition getSelectedFoodQuantity (foodName : string) (s : App) : number :=
  match List.find (named foodName) (selectedFoods s) with
  | Some food => quantity food
  | None => zero
  end.

(** The updater passed to [setMealPlan]; [None] when [mealCategory] is not
    a key of the plan (spreading [undefined] throws). *)
Definition addToCategory (foodName : string) (quantity : number)
    (mealCategory : string) (prevMealPlan : gmap string (list SelectedFood))
  : option (gmap string (list SelectedFood)) :=
  match prevMealPlan !! mealCategory with
  | None => None
  | Some categoryFoods =>
      let updatedCategoryFoods :=
        match findIndex (named foodName) categoryFoods with
        | Some existingIndex =>
            alter (with_quantity quantity) existingIndex categoryFoods
        | None =>
            categoryFoods ++ [ {| food_name := foodName; quantity := quantity |} ]
        end in
      Some (<[mealCategory := updatedCategoryFoods]> prevMealPlan)
  end.

Definition handleAddToMeal (foodName : string) (quantity : number)
    (mealCategory : string) (s : App) : option App :=
  if le quantity zero
  then Some (setMessage "Quantity must be greater than 0 to add to meal plan." s)
  else
    match addToCategory foodName quantity mealCategory (mealPlan s) with
    | None => None
    | Some updated =>
        Some (setMessage (numberToString quantity +:+ " of " +:+ foodName
                          +:+ " added to " +:+ mealCategory +:+ ".")
                         (setMealPlan updated s))
    end.

(** *** What the user can do on the menu-planning form *)

Inductive MenuEvent : Type :=
  | QuantityInput (foodName value : string)     (* the quantity field *)
  | CategorySelect (category : string)          (* the category drop-down *)
  | AddToMealClick (foodName : string).         (* the "Add to Meal" button *)

(** A drop-down only offers the five categories. *)
Definition offered (e : MenuEvent) : Prop :=
  match e with
  | CategorySelect c => In c mealCategories
  | _ => True
  end.

Definition menuStep (s : App) (e : MenuEvent) : option App :=
  match e with
  | QuantityInput foodName value => Some (handleFoodQuantityChange foodName value s)
  | CategorySelect c => Some (setSelectedMealCategory c s)
  | AddToMealClick foodName =>
      handleAddToMeal foodName (getSelectedFoodQuantity foodName s)
                      (selectedMealCategory s) s
  end.

Inductive reachable : App -> Prop :=
  | reachable_initial : reachable initialApp
  | reachable_step s e s' :
      reachable s -> offered e -> menuStep s e = Some s' -> reachable s'.

(** Every entry of the selection and of the plan has a quantity above 0. *)
Definition positive (entry : SelectedFood) : Prop :=
  gt (quantity entry) zero = true.

Definition quantities_positive (s : App) : Prop :=
  Forall positive (selectedFoods s)
  /\ (forall category foods, mealPlan s !! category = Some foods ->
        Forall positive foods).

(** *** Calculation and kitchen handlers *)

(** The part of an [async] handler before its [fetch]: either it returns
    early, leaving a new state, or it issues a request. *)
Inductive Outcome (R : Type) : Type :=
  | Stay (s : App)
  | Send (request : R).
Arguments Stay {R} s.
Arguments Send {R} request.

Record CalcRequest : Type := mkCalcRequest {
  selected_foods : list SelectedFood;
  req_rda_profile_name : string
}.

Inductive CalcResponse : Type :=
  | CalcOk (data : CalculationResult)
  | CalcNotOk (detail : option string) (statusText : string)
  | CalcThrew (error : string).

Definition calculateRequest (s : App) : Outcome CalcRequest :=
  if (length (selectedFoods s) =? 0)%nat
  then Stay (setMessage "Please select some food items for the menu." s)
  else if String.eqb (selectedRdaProfile s) ""
  then Stay (setMessage "Please select an RDA profile." s)
  else Send {| selected_foods := selectedFoods s;
               req_rda_profile_name := selectedRdaProfile s |}.

Definition calculateResponse (response : CalcResponse) (s : App) : App :=
  match response with
  | CalcOk data =>
      setMessage "Nutritional calculation successful!"
                 (setCalculationResult (Some data) s)
  | CalcNotOk detail statusText =>
      setCalculationResult None
        (setMessage ("Error calculating nutrition: " +:+ or_else detail statusText) s)
  | CalcThrew error =>
      setCalculationResult None
        (setMessage ("Network error calculating nutrition: " +:+ error) s)
  end.

Definition handleCalculateNutrition (server : CalcRequest -> CalcResponse)
    (s : App) : App :=
  match calculateRequest s with
  | Stay s' => s'
  | Send request => calculateResponse (server request) s
  end.

Record KitchenRequest : Type := mkKitchenRequest {
  patient_id : Z;
  meal_plan : gmap string (list SelectedFood)
}.

Inductive KitchenResponse : Type :=
  | KitchenOk (message : string)
  | KitchenNotOk (detail : option string) (statusText : string)
  | KitchenThrew (error : string).

(** [Object.values(mealPlan).every(category => category.length === 0)] *)
Definition everyCategoryEmpty (plan : gmap string (list SelectedFood)) : bool :=
  forallb (fun category => (length category =? 0)%nat) (map_to_list plan).*2.

(** [!selectedPatient]: no patient, or the id 0. *)
Definition noPatient (selected : option Z) : bool :=
  match selected with
  | None => true
  | Some patientId => patientId =? 0
  end.

Definition kitchenRequest (s : App) : Outcome KitchenRequest :=
  if everyCategoryEmpty (mealPlan s)
  then Stay (setMessage
               "Meal plan is empty. Please add items before sending to kitchen." s)
  else
    match selectedPatient s with
    | Some patientId =>
        if patientId =? 0 then Stay (setMessage "Please select a patient." s)
        else Send {| patient_id := patientId; meal_plan := mealPlan s |}
    | None => Stay (setMessage "Please select a patient." s)
    end.

Definition kitchenResponse (response : KitchenResponse) (s : App) : App :=
  match response with
  | KitchenOk m => setMessage m s
  | KitchenNotOk detail statusText =>
      setMessage ("Error sending meal plan: " +:+ or_else detail statusText) s
  | KitchenThrew error =>
      setMessage ("Network error sending meal plan: " +:+ error) s
  end.

Definition handleSendToKitchen (server : KitchenRequest -> KitchenResponse)
    (s : App) : App :=
  match kitchenRequest s with
  | Stay s' => s'
  | Send request => kitchenResponse (server request) s
  end.

(** *** The result tables *)

Fixpoint zeros (n : nat) : string :=
  match n with O => "" | S n' => String "0"%char (zeros n') end.

(** The digits of [n] hundredths with the decimal point put in. *)
Definition hundredths (n : Z) : string :=
  let digits := pretty n in
  let padded := zeros (3 - String.length digits) +:+ digits in
  let whole := (String.length padded - 2)%nat in
  String.substring 0 whole padded +:+ "." +:+ String.substring whole 2 padded.

(** [x.toFixed(2)]: the nearest number of hundredths, a tie going to the
    larger magnitude; magnitudes from 10^21 on are printed as by the
    conversion to string.  The rounding is that of the exact rational of
    the model: the binary rounding of the double that JavaScript holds
    (1.005 printed as "1.00") is not modelled, and the properties below
    use this function at null and at zero only. *)
Definition toFixed2 (x : number) : string :=
  match x with
  | NaN => "NaN"
  | PosInf => "Infinity"
  | NegInf => "-Infinity"
  | Fin q =>
      let magnitude := Qabs q in
      if Qle_bool (10 ^ 21) magnitude then numberToString x
      else
        let n := (2 * 100 * Qnum magnitude + Z.pos (Qden magnitude))
                 / (2 * Z.pos (Qden magnitude)) in
        (if lt x zero then "-" else "") +:+ hundredths n
  end.

(** [value !== null ? value.toFixed(2) : 'N/A'] *)
Definition fixedOrNA (value : option number) : string :=
  match value with
  | Some v => toFixed2 v
  | None => "N/A"
  end.

Definition rowClass (diff : option number) : string :=
  match diff with
  | Some d => if lt d zero then "deficit" else "excess"
  | None => ""
  end.

Definition statusCell (diff : option number) : string :=
  match diff with
  | Some d =>
      if lt d zero then "Deficit"
      else if gt d zero then "Excess"
      else "Meets Target"
  | None => "N/A"
  end.

Record AmountRow : Type := mkAmountRow {
  amount_nutrient : string;
  amount_cell : string
}.

Record ComparisonRow : Type := mkComparisonRow {
  row_class : string;
  row_nutrient : string;
  difference_cell : string;
  status_cell : string
}.

Definition totalsTable (r : CalculationResult) : list AmountRow :=
  map (fun '(nutrient, amount) =>
         {| amount_nutrient := nutrient; amount_cell := fixedOrNA amount |})
      (total_nutrients r).

Definition comparisonTable (r : CalculationResult) : list ComparisonRow :=
  map (fun '(nutrient, diff) =>
         {| row_class := rowClass diff; row_nutrient := nutrient;
            difference_cell := fixedOrNA diff; status_cell := statusCell diff |})
      (nutrient_comparison r).

End Platform.

Arguments Stay {R} s.
Arguments Send {R} request.

(** A reader of plain decimal literals (an optional minus sign, digits, an
    optional fraction) and a printer of numbers, to run the handlers on
    examples; the properties below hold for any [parseFloat]. *)
Definition digitValue (c : Ascii.ascii) : option Z :=
  let n := Z.of_N (Ascii.N_of_ascii c) in
  if (48 <=? n) && (n <=? 57) then Some (n - 48) else None.

Fixpoint readDigits (acc : Z) (count : nat) (str : string) : Z * nat * string :=
  match str with
  | String c rest =>
      match digitValue c with
      | Some d => readDigits (10 * acc + d) (S count) rest
      | None => (acc, count, str)
      end
  | EmptyString => (acc, count, str)
  end.

Definition readUnsigned (str : string) : option Q :=
  let '(whole, wholeDigits, rest) := readDigits 0 0 str in
  match rest with
  | String "."%char rest' =>
      let '(frac, fracDigits, _) := readDigits 0 0 rest' in
      if (wholeDigits + fracDigits =? 0)%nat then None
      else Some (Qred (inject_Z whole
                       + (frac # Z.to_pos (10 ^ Z.of_nat fracDigits))))
  | _ => if (wholeDigits =? 0)%nat then None else Some (inject_Z whole)
  end.

Definition parseDecimal (str : string) : number :=
  match str with
  | String "-"%char rest =>
      match readUnsigned rest with Some q => Fin (Qred (- q)) | None => NaN end
  | _ => match readUnsigned str with Some q => Fin q | None => NaN end
  end.

Definition showNumber (x : number) : string :=
  match x with
  | NaN => "NaN" | PosInf => "Infinity" | NegInf => "-Infinity"
  | Fin q => pretty (Qnum q) +:+ "/" +:+ pretty (Z.pos (Qden q))
  end.

(** The plan keeps its five categories and the drop-down one of them, so
    that adding to the selected category is defined. *)
Definition categories_present (s : App) : Prop :=
  In (selectedMealCategory s) mealCategories
  /\ (forall c, In c mealCategories -> is_Some (mealPlan s !! c)).

(** A sequence of actions on the menu form, run with the sample reader and
    printer; [None] if an action is not defined. *)
Definition runMenu (events : list MenuEvent) (s : App) : option App :=
  foldl (fun state e => state ≫= fun s' => menuStep parseDecimal showNumber s' e)
        (Some s) events.

(** Half a serving of rice typed in and added to breakfast. *)
Definition half_rice_events : list MenuEvent :=
  [QuantityInput "Rice" "0.5"; AddToMealClick "Rice"].

Definition half_rice_added : App :=
  {| message := "1/2 of Rice added to Breakfast.";
     selectedFoods := [ {| food_name := "Rice"; quantity := Fin (1 # 2) |} ];
     selectedRdaProfile := ""; calculationResult := None;
     mealPlan := <["Breakfast" := [ {| food_name := "Rice"; quantity := Fin (1 # 2) |} ]]>
                   initialMealPlan;
     selectedMealCategory := "Breakfast"; selectedPatient := None |}.

(** Send-to-kitchen read as: nothing is sent for a plan whose categories
    are all empty, and every other plan is sent whole. *)
Definition sends_every_nonempty_plan : Prop :=
  forall s : App,
    (everyCategoryEmpty (mealPlan s) = true ->
       exists s', kitchenRequest s = Stay s')
    /\ (everyCategoryEmpty (mealPlan s) = false ->
         exists request, kitchenRequest s = Send request
                         /\ meal_plan request = mealPlan s).

(** Sample states: rice for breakfast, without and with a patient. *)
Definition rice_breakfast : gmap string (list SelectedFood) :=
  <["Breakfast" := [ {| food_name := "Rice"; quantity := Fin 2 |} ]]> initialMealPlan.

Definition plan_without_patient : App :=
  {| message := ""; selectedFoods := [ {| food_name := "Rice"; quantity := Fin 2 |} ];
     selectedRdaProfile := "Adult-Male"; calculationResult := None;
     mealPlan := rice_breakfast; selectedMealCategory := "Breakfast";
     selectedPatient := None |}.

Definition plan_with_patient : App :=
  {| message := ""; selectedFoods := [ {| food_name := "Rice"; quantity := Fin 2 |} ];
     selectedRdaProfile := "Adult-Male"; calculationResult := None;
     mealPlan := rice_breakfast; selectedMealCategory := "Breakfast";
     selectedPatient := Some 7 |}.

End Planner.

(** ** The nutrition engine behind the planner

    The aggregation and comparison run in the back end (app.py); they are
    modelled here from the specification (sections 3, 4.1, 4.3, 4.4, 6
    and 8). *)

Module Engine.

Local Open Scope Q_scope.

(** Modelled from the spec: the FoodRecord of the catalog (back end); an
    absent nutrient is unknown, not zero. *)
Record FoodRecord : Type := mkFood {
  food_name : string;
  serving_size : string;
  nutrients : gmap string Q
}.

(** Modelled from the spec: the RDAProfile of the catalog (back end). *)
Record RDAProfile : Type := mkProfile {
  profile_name : string;
  targets : gmap string Q
}.

(** Modelled from the spec: names are matched without regard to case
    (catalog lookup, back end); the folding is that of the ASCII letters,
    other characters are compared as they are. *)
Definition lower_ascii (c : ascii) : ascii :=
  let n := N_of_ascii c in
  if ((65 <=? n) && (n <=? 90))%N then ascii_of_N (n + 32) else c.

(** Modelled from the spec: see [lower_ascii]. *)
Fixpoint lower (name : string) : string :=
  match name with
  | EmptyString => EmptyString
  | String c rest => String (lower_ascii c) (lower rest)
  end.

(** Modelled from the spec: the Catalog Store's [upsertFoods] (back end),
    an upsert by name where the last write wins. *)
Definition upsertFoods (records : list FoodRecord)
    (catalog : gmap string FoodRecord) : gmap string FoodRecord :=
  foldl (fun c r => <[lower (food_name r) := r]> c) catalog records.

(** Modelled from the spec: the Catalog Store's [getFood] (back end). *)
Definition getFood (catalog : gmap string FoodRecord) (name : string)
  : option FoodRecord :=
  catalog !! lower name.

(** Modelled from the spec: the Catalog Store's [upsertRDAProfiles] and
    [getProfile] (back end); profile names are a plain unique key. *)
Definition upsertRDAProfiles (records : list RDAProfile)
    (profiles : gmap string RDAProfile) : gmap string RDAProfile :=
  foldl (fun c r => <[profile_name r := r]> c) profiles records.

(** Modelled from the spec: see [upsertRDAProfiles]. *)
Definition getProfile (profiles : gmap string RDAProfile) (name : string)
  : option RDAProfile :=
  profiles !! name.

(** Modelled from the spec: the fatal errors of aggregation and comparison
    (back end), each with the name that could not be resolved. *)
Inductive EngineError : Type :=
  | FoodNotFoundError (foodName : string)
  | ProfileNotFoundError (profileName : string).

(** Modelled from the spec: the Aggregator's resolution of the menu lines
    (back end): the first name that the catalog does not have fails the
    whole call. *)
Fixpoint resolve (catalog : gmap string FoodRecord) (menu : list (string * Q))
  : EngineError + list (FoodRecord * Q) :=
  match menu with
  | [] => inr []
  | (foodName, quantity) :: rest =>
      match getFood catalog foodName with
      | None => inl (FoodNotFoundError foodName)
      | Some food =>
          match resolve catalog rest with
          | inl e => inl e
          | inr resolved => inr ((food, quantity) :: resolved)
          end
      end
  end.

(** Modelled from the spec: the contribution of one resolved food to one
    nutrient (Aggregator, back end): amount per serving times quantity,
    unknown when the food has no value for the nutrient. *)
Definition contribution (nutrient : string) (line : FoodRecord * Q) : option Q :=
  (fun perServing => perServing * line.2) <$> nutrients line.1 !! nutrient.

(** Modelled from the spec: summation where unknown dominates (Aggregator,
    back end). *)
Definition add_known (total part : option Q) : option Q :=
  match total, part with
  | Some t, Some x => Some (t + x)
  | _, _ => None
  end.

(** Modelled from the spec: the total of one nutrient over the resolved
    menu (Aggregator, back end). *)
Definition total_of (resolved : list (FoodRecord * Q)) (nutrient : string)
  : option Q :=
  foldl (fun total line => add_known total (contribution nutrient line))
        (Some 0) resolved.

(** Modelled from the spec: the open nutrient column set of the Food
    table (section 6, back end): every nutrient that some food of the
    catalog has a value for. *)
Definition nutrient_columns (catalog : gmap string FoodRecord) : gset string :=
  ⋃ ((fun entry => dom (nutrients entry.2)) <$> map_to_list catalog).

(** Modelled from the spec: the nutrient totals (Aggregator, back end),
    one for every nutrient column of the catalog, so that a nutrient
    that no selected food has a value for is marked null like one that
    only some have; [Some None] is a total marked null. *)
Definition totals_of (catalog : gmap string FoodRecord)
    (resolved : list (FoodRecord * Q)) : gmap string (option Q) :=
  map_imap (fun nutrient _ => Some (total_of resolved nutrient))
           (gset_to_gmap tt (nutrient_columns catalog)).

(** Modelled from the spec: a menu line echoed with its serving-size label
    (Aggregator, back end). *)
Record ResolvedItem : Type := mkResolved {
  item_name : string;
  item_quantity : Q;
  item_serving : string
}.

(** Modelled from the spec: [aggregate] of the Nutrition Aggregator (back
    end). *)
Definition aggregate (catalog : gmap string FoodRecord) (menu : list (string * Q))
  : EngineError + (list ResolvedItem * gmap string (option Q)) :=
  match resolve catalog menu with
  | inl e => inl e
  | inr resolved =>
      inr (zip_with (fun line fq =>
                       {| item_name := line.1; item_quantity := line.2;
                          item_serving := serving_size fq.1 |})
                    menu resolved,
           totals_of catalog resolved)
  end.

(** Modelled from the spec: the classes of the comparison report (RDA
    Comparator, back end). *)
Inductive Status : Type := Deficit | Excess | MeetsTarget | NotDeterminable.

(** Modelled from the spec: the classification of a comparison value (RDA
    Comparator, back end), without tolerance. *)
Definition classify (comparison : option Q) : Status :=
  match comparison with
  | None => NotDeterminable
  | Some d =>
      match d ?= 0 with
      | Lt => Deficit
      | Gt => Excess
      | Eq => MeetsTarget
      end
  end.

(** The name of a class as the status column spells it. *)
Definition status_label (status : Status) : string :=
  match status with
  | Deficit => "Deficit"
  | Excess => "Excess"
  | MeetsTarget => "Meets Target"
  | NotDeterminable => "N/A"
  end.

(** Modelled from the spec: the comparison value of one nutrient (RDA
    Comparator, back end), from its entry in the totals and its entry in
    the profile: total minus target, and null ("not determinable") when
    the total is null or when one of the two entries is missing, as for
    fiber in the scenario of section 8. *)
Definition difference (total : option (option Q)) (target : option Q)
  : option (option Q) :=
  match total, target with
  | None, None => None
  | Some (Some t), Some goal => Some (Some (t - goal))
  | _, _ => Some None
  end.

(** Modelled from the spec: [compare] of the RDA Comparator (back end),
    the comparison value of every nutrient of the totals or of the
    profile. *)
Definition compare (profiles : gmap string RDAProfile)
    (totals : gmap string (option Q)) (profileName : string)
  : EngineError + gmap string (option Q) :=
  match getProfile profiles profileName with
  | None => inl (ProfileNotFoundError profileName)
  | Some profile => inr (merge difference totals (targets profile))
  end.

(** Modelled from the spec: how a total or comparison value travels to the
    client (request layer, back end): unknown as JSON null. *)
Definition wire (value : option Q) : option number := Fin <$> value.

(** Modelled from the spec: the entries of a totals or comparison object as
    the client receives them (request layer, back end).  The spec fixes
    no order of the entries; the properties below hold for every
    rearrangement of this list. *)
Definition wire_entries (values : gmap string (option Q))
  : list (string * option number) :=
  prod_map id wire <$> map_to_list values.

(** Every quantity of the menu multiplied by [k]. *)
Definition scale_menu (k : Q) (menu : list (string * Q)) : list (string * Q) :=
  prod_map id (Qmult k) <$> menu.

(** The resolved lines of a menu scaled by [k]. *)
Definition scale_lines (k : Q) (resolved : list (FoodRecord * Q))
  : list (FoodRecord * Q) :=
  prod_map id (Qmult k) <$> resolved.

(** [t'] is [k] times [t], unknown on both sides or on neither. *)
Definition scaled_by (k : Q) (t' t : option Q) : Prop :=
  match t', t with
  | Some a, Some b => a == k * b
  | None, None => True
  | _, _ => False
  end.

(** The catalog and the profile of the worked example of the
    specification. *)
Definition rice : FoodRecord :=
  {| food_name := "Rice"; serving_size := "1 cup";
     nutrients := <["calories" := 200]> (<["protein" := 4]> ∅) |}.

Definition dal : FoodRecord :=
  {| food_name := "Dal"; serving_size := "1 bowl";
     nutrients := <["calories" := 150]> (<["protein" := 9]> (<["fiber" := 3]> ∅)) |}.

Definition curd : FoodRecord :=
  {| food_name := "Curd"; serving_size := "1 cup";
     nutrients := <["calories" := 98]> (<["protein" := 11]> ∅) |}.

Definition sample_catalog : gmap string FoodRecord :=
  upsertFoods [rice; dal; curd] ∅.

Definition adult_male : RDAProfile :=
  {| profile_name := "Adult-Male";
     targets := <["calories" := 2000]> (<["protein" := 50]> ∅) |}.

Definition sample_profiles : gmap string RDAProfile :=
  upsertRDAProfiles [adult_male] ∅.

(** A catalog in which every food has a value in every column. *)
Definition complete_catalog : gmap string FoodRecord :=
  upsertFoods [rice; curd] ∅.

Definition rice_and_dal : list (string * Q) := [("Rice", 2); ("Dal", 1)].
Definition rice_alone : list (string * Q) := [("Rice", 2)].
Definition rice_and_curd : list (string * Q) := [("Rice", 2); ("Curd", 1 # 2)].
Definition rice_and_soup : list (string * Q) := [("Rice", 2); ("Soup", 1)].

End Engine.

(** ** What the kitchen dashboard shows *)

Module DashboardView.
Import KitchenDashboard.

(** *** renderItems of the summary *)

(** [Meal ID: {planId} - {mealCategory} - {foodName}] *)
Definition itemLine (e : SummaryEntry) : string :=
  "Meal ID: " +:+ pretty (planId e) +:+ " - " +:+ mealCategory e
  +:+ " - " +:+ foodName e.

(** The list of lines, or the paragraph "None". *)
Inductive ItemsBody : Type :=
  | ItemLines (lines : list string)
  | NoneParagraph.

Record ItemsBlock : Type := mkBlock {
  body : ItemsBody;
  toggleButton : option string
}.

Definition renderItems (items : list SummaryEntry) (showAll : bool) : ItemsBlock :=
  let displayItems := if showAll then items else take 5 items in
  {| body := if (0 <? length displayItems)%nat
             then ItemLines (map itemLine displayItems)
             else NoneParagraph;
     toggleButton := if (5 <? length items)%nat
                     then Some (if showAll then "Show Less" else "Show More")
                     else None |}.

(** One [details] element of the summary: its heading with the count and
    its block. *)
Record SummarySection : Type := mkSection {
  heading : string;
  block : ItemsBlock
}.

Definition summarySection (title : string) (items : list SummaryEntry)
    (showAll : bool) : SummarySection :=
  {| heading := title +:+ " (" +:+ pretty (length items) +:+ ")";
     block := renderItems items showAll |}.

(** *** The plan cards of the view by patient *)

Definition cardComplete (plan : MealPlan) : bool :=
  forallb (fun it => prepared it && delivered it) (items plan).

Definition cardClass (plan : MealPlan) : string :=
  "meal-plan-card " +:+ (if cardComplete plan then "meal-plan-complete"
                         else "meal-plan-pending").

(** The [reduce] that groups the items of one card by category:
    [(acc[c] = acc[c] || []).push(item)].  What the key reads is kept when
    it is truthy; an inherited value is then stored under the key, and
    the call of [push] on it is a TypeError. *)
Definition groupStep (acc : gmap string (list MealPlanItem)) (it : MealPlanItem)
  : option (gmap string (list MealPlanItem)) :=
  match read acc (meal_category it) with
  | OwnArray group => Some (<[meal_category it := group ++ [it]]> acc)
  | Undefined => Some (<[meal_category it := [it]]> acc)
  | FromPrototype => None
  end.

(** The object that the card lists; [None] when the [reduce] throws. *)
Definition groupByCategory (plan : MealPlan)
  : option (gmap string (list MealPlanItem)) :=
  foldThrowing groupStep ∅ (items plan).

(** The items of the plan that the card groups have ordinary category
    names. *)
Definition card_keys_only (plan : MealPlan) : Prop :=
  forall it, In it (items plan) -> ordinary it.

(** *** Fetching the plans of a date *)









(** *** The screen *)

(** A card of the view by patient.  [card_groups] is the object whose
    entries the card lists, one block per category; the order in which
    [Object.entries] enumerates the categories is not part of the
    model. *)
Record Card : Type := mkCard {
  card_class : string;
  card_plan : Z;
  card_patient : option PatientRef;
  card_groups : gmap string (list MealPlanItem)
}.

(** [None] when grouping the items of the plan throws. *)
Definition card (plan : MealPlan) : option Card :=
  match groupByCategory plan with
  | Some groups =>
      Some {| card_class := cardClass plan; card_plan := plan_id plan;
              card_patient := patient plan; card_groups := groups |}
  | None => None
  end.

(** What is below the summary: a message, the cards or the sections of
    the memoised grouping (again without the order of the categories). *)
Inductive Listing : Type :=
  | NoPlansYet                                         (* view by patient, no plan *)
  | Cards (cards : list Card)
  | NoPlansForDate                                     (* view by time, no plan *)
  | TimeSections (sections : gmap string (list GroupedItem)).

Inductive Screen : Type :=
  | LoadingScreen
  | ErrorScreen (text : string)
  | Board (listing : Listing).

(** [if (error)]: null and the empty string are falsy. *)
Definition shownError (s : Dashboard) : option string :=
  match error s with
  | Some e => if decide (e = "") then None else Some e
  | None => None
  end.

(** [mealPlans.map(plan => ...)] throws when one of the cards does. *)
Definition listing (s : Dashboard) (grouped : gmap string (list GroupedItem))
  : option Listing :=
  match displayMode s with
  | patientView =>
      if (length (mealPlans s) =? 0)%nat then Some NoPlansYet
      else Cards <$> mapM card (mealPlans s)
  | timeView =>
      if (length (mealPlans s) =? 0)%nat then Some NoPlansForDate
      else Some (TimeSections grouped)
  end.

(** One render of the component; [None] when it throws.  The [useMemo]
    of the grouping by meal category is evaluated first, in either view
    and before the guards on [loading] and [error]. *)
Definition screen (s : Dashboard) : option Screen :=
  match groupedMealItems (mealPlans s) with
  | None => None
  | Some grouped =>
      if loading s then Some LoadingScreen
      else match shownError s with
           | Some e => Some (ErrorScreen ("Error: " +:+ e))
           | None => Board <$> listing s grouped
           end
  end.


(** How many items of the plans have the given id and are not prepared. *)
Definition unpreparedWithId (itemId : Z) (plans : list MealPlan) : nat :=
  length (List.filter (fun it => (id it =? itemId) && negb (prepared it))
                      (flat_map items plans)).

(** Sample data: seven entries for the summary, a second dish for the
    sample plan. *)
Definition seven_entries : list SummaryEntry :=
  map (fun n => {| planId := n; mealCategory := "Lunch"; foodName := "Dal" |})
      [1; 2; 3; 4; 5; 6; 7].

Definition dal_item : MealPlanItem :=
  {| id := 3; meal_category := "Lunch"; food_name := "Dal";
     quantity := Fin 1; prepared := true; delivered := true |}.

Definition two_dish_plan : MealPlan :=
  {| plan_id := 12; timestamp := "2025-01-05T10:00:00"; patient := Some asha;
     items := [rice_item; dal_item] |}.

End DashboardView.

(** ** The rest of the planner: session, patients, search, feedback *)

Module Workspace.
Import Planner.

(** *** Session and navigation *)

Inductive View : Type := login | register | main | dashboard | patients.

Record Session : Type := mkSession {
  currentView : View;
  token : option string;
  userRole : option string;
  loggedInUsername : option string
}.

(** A string or null used as a condition. *)
Definition truthy (v : option string) : bool :=
  match v with
  | Some text => negb (String.eqb text "")
  | None => false
  end.

(** [userRole === role] *)
Definition hasRole (s : Session) (role : string) : bool :=
  match userRole s with
  | Some r => String.eqb r role
  | None => false
  end.

Definition setCurrentView (v : View) (s : Session) : Session :=
  {| currentView := v; token := token s; userRole := userRole s;
     loggedInUsername := loggedInUsername s |}.

(** The session together with the local storage of the browser. *)
Definition handleLoginSuccess (newToken role username : string)
    (st : Session * gmap string string) : Session * gmap string string :=
  ({| currentView := main; token := Some newToken; userRole := Some role;
      loggedInUsername := Some username |},
   <["username" := username]>
     (<["userRole" := role]> (<["authToken" := newToken]> st.2))).

Definition handleLogout (st : Session * gmap string string)
  : Session * gmap string string :=
  ({| currentView := login; token := None; userRole := None;
      loggedInUsername := None |},
   delete "username" (delete "userRole" (delete "authToken" st.2))).

(** The effect on [token, userRole, loggedInUsername]. *)
Definition redirectWhenLoggedIn (s : Session) : Session :=
  if truthy (token s) && truthy (userRole s) && truthy (loggedInUsername s)
  then setCurrentView main s
  else s.

(** The state hooks as initialised from the storage, after the effect of
    the first render. *)
Definition mount (storage : gmap string string) : Session :=
  redirectWhenLoggedIn
    {| currentView := login; token := storage !! "authToken";
       userRole := storage !! "userRole";
       loggedInUsername := storage !! "username" |}.

(** The navigation buttons of the header, by the view they select (the
    logout button is always there). *)
Definition navigation (s : Session) : list View :=
  (if hasRole s "dietician" then [main; patients] else [])
  ++ (if hasRole s "dietician" || hasRole s "kitchen_staff" then [dashboard] else []).

(** The one section that the main area renders, if any. *)
Definition shownSection (s : Session) : option View :=
  match currentView s with
  | main => if hasRole s "dietician" then Some main else None
  | dashboard =>
      if hasRole s "dietician" || hasRole s "kitchen_staff" then Some dashboard
      else None
  | patients => if hasRole s "dietician" then Some patients else None
  | _ => None
  end.

Inductive Page : Type :=
  | AuthPage (form : View)
  | WorkPage (userInfo : option string) (nav : list View) (section : option View).

Definition page (s : Session) : Page :=
  if truthy (token s) then
    WorkPage
      (match loggedInUsername s, userRole s with
       | Some user, Some role =>
           if truthy (Some user) && truthy (Some role)
           then Some ("Logged in as: " +:+ user +:+ " (" +:+ role +:+ ")")
           else None
       | _, _ => None
       end)
      (navigation s) (shownSection s)
  else AuthPage (match currentView s with login => login | _ => register end).

(** *** The menu form *)

(** No food is named twice in the selection or in a category of the plan. *)
Definition names_unique (s : App) : Prop :=
  NoDup (map food_name (selectedFoods s))
  /\ forall category foods, mealPlan s !! category = Some foods ->
                            NoDup (map food_name foods).

(** *** Patients *)

Definition setSelectedPatient (selected : option Z) (s : App) : App :=
  {| message := message s; selectedFoods := selectedFoods s;
     selectedRdaProfile := selectedRdaProfile s;
     calculationResult := calculationResult s; mealPlan := mealPlan s;
     selectedMealCategory := selectedMealCategory s;
     selectedPatient := selected |}.

Inductive PatientsResponse : Type :=
  | PatientsOk (data : list KitchenDashboard.PatientRef)
  | PatientsNotOk (status : Z) (statusText : string)
  | PatientsThrew (error : string).

(** [fetchPatients], on the patient list and the planner state; a failure
    is only logged. *)
Definition fetchPatients (s : Session) (response : PatientsResponse)
    (st : list KitchenDashboard.PatientRef * App)
  : list KitchenDashboard.PatientRef * App :=
  if negb (truthy (token s)) then st
  else
    match response with
    | PatientsOk data =>
        (data,
         match data with
         | first :: _ => setSelectedPatient (Some (KitchenDashboard.patient_id first)) st.2
         | [] => st.2
         end)
    | _ => st
    end.

(** *** Searching foods and patients *)

Record FoodItem : Type := mkFoodItem {
  FoodName : string;
  ServingSize : string;
  Calories : number;
  Protein : number;
  Carbohydrates : number;
  Fat : number;
  Sodium : number;
  Fiber : number
}.

(** [text.includes(part)] *)
Definition includes (text part : string) : bool :=
  match String.index 0 part text with
  | Some _ => true
  | None => false
  end.

Section Search.

(** [String.prototype.toLowerCase], a built-in of the host. *)
Variable toLowerCase : string -> string.

Definition filteredFoods (foods : list FoodItem) (searchTerm : string)
  : list FoodItem :=
  List.filter (fun food => includes (toLowerCase (FoodName food))
                                    (toLowerCase searchTerm))
              foods.

Definition filteredPatients (patients : list KitchenDashboard.PatientRef)
    (patientSearchTerm : string) : list KitchenDashboard.PatientRef :=
  if String.eqb patientSearchTerm "" then patients
  else List.filter
         (fun p => includes (toLowerCase (KitchenDashboard.name p))
                            (toLowerCase patientSearchTerm)
                   || includes (toLowerCase (KitchenDashboard.hospital_id p))
                               (toLowerCase patientSearchTerm))
         patients.

End Search.

(** *** AI feedback *)

Record Advisor : Type := mkAdvisor {
  app : App;
  coMorbidities : string;
  dietPreference : string;
  aiFeedback : string
}.

Definition withApp (f : App -> App) (a : Advisor) : Advisor :=
  {| app := f (app a); coMorbidities := coMorbidities a;
     dietPreference := dietPreference a; aiFeedback := aiFeedback a |}.

Definition setAiFeedback (text : string) (a : Advisor) : Advisor :=
  {| app := app a; coMorbidities := coMorbidities a;
     dietPreference := dietPreference a; aiFeedback := text |}.

Record FeedbackRequest : Type := mkFeedbackRequest {
  nutritional_summary : list (string * option number);
  co_morbidities : string;
  diet_preference : string
}.

Inductive FeedbackResponse : Type :=
  | FeedbackOk (ai_feedback : string)
  | FeedbackNotOk (detail : option string) (statusText : string)
  | FeedbackThrew (error : string).

Definition feedbackRequest (a : Advisor) : Outcome FeedbackRequest :=
  match calculationResult (app a) with
  | None => Stay (setMessage "Please perform a nutritional calculation first." (app a))
  | Some result =>
      Send {| nutritional_summary := total_nutrients result;
              co_morbidities := coMorbidities a;
              diet_preference := dietPreference a |}
  end.

Definition feedbackResponse (response : FeedbackResponse) (a : Advisor) : Advisor :=
  match response with
  | FeedbackOk text =>
      withApp (setMessage "AI feedback generated successfully!") (setAiFeedback text a)
  | FeedbackNotOk detail statusText =>
      setAiFeedback ""
        (withApp (setMessage ("Error generating AI feedback: "
                              +:+ or_else detail statusText)) a)
  | FeedbackThrew error =>
      setAiFeedback ""
        (withApp (setMessage ("Network error generating AI feedback: " +:+ error)) a)
  end.

Definition handleGenerateAiFeedback (server : FeedbackRequest -> FeedbackResponse)
    (a : Advisor) : Advisor :=
  match feedbackRequest a with
  | Stay s' => withApp (fun _ => s') a
  | Send request => feedbackResponse (server request) a
  end.

(** Sample data. *)
Definition kitchen_session : Session :=
  {| currentView := main; token := Some "t0k3n"; userRole := Some "kitchen_staff";
     loggedInUsername := Some "ravi" |}.

Definition idli : FoodItem :=
  {| FoodName := "Idli"; ServingSize := "2 pieces"; Calories := Fin 120;
     Protein := Fin 4; Carbohydrates := Fin 24; Fat := Fin (1 # 2);
     Sodium := Fin 200; Fiber := Fin 2 |}.

Definition sample_result : CalculationResult :=
  {| selected_menu := [ {| line_food_name := "Rice"; line_quantity := Fin 2;
                           serving_size := "1 cup" |} ];
     total_nutrients := [("calories", Some (Fin 400)); ("fiber", None)];
     rda_profile_name := "Adult-Male";
     rda_targets := [("calories", Some (Fin 2000))];
     nutrient_comparison := [("calories", Some (Fin (-1600)))];
     final_summary := "1 nutrient in deficit." |}.

Definition sample_advisor : Advisor :=
  {| app := setCalculationResult (Some sample_result) plan_with_patient;
     coMorbidities := "Diabetes"; dietPreference := "Vegetarian";
     aiFeedback := "Earlier advice." |}.

End Workspace.

(** ** Patient management (PatientManagement.tsx) *)

Module PatientManagement.
Import KitchenDashboard.

(** The form: a patient whose id may be missing. *)
Record PatientForm : Type := mkForm {
  form_id : option Z;
  form_hospital_id : string;
  form_name : string;
  form_age : number;
  form_sex : string
}.

Record Management : Type := mkManagement {
  patients : list PatientRef;
  loading : bool;
  error : option string;
  form : PatientForm
}.

Definition emptyForm : PatientForm :=
  {| form_id := None; form_hospital_id := ""; form_name := "";
     form_age := zero; form_sex := "" |}.

Definition setForm (f : PatientForm) (m : Management) : Management :=
  {| patients := patients m; loading := loading m; error := error m; form := f |}.

Definition setError (e : string) (m : Management) : Management :=
  {| patients := patients m; loading := loading m; error := Some e; form := form m |}.

(** [handleEdit]: the patient becomes the form. *)
Definition handleEdit (p : PatientRef) (m : Management) : Management :=
  setForm {| form_id := Some (patient_id p); form_hospital_id := hospital_id p;
             form_name := name p; form_age := Fin (inject_Z (age p));
             form_sex := sex p |} m.

Inductive Method : Type := POST | PUT | DELETE.

Record Request : Type := mkRequest {
  method : Method;
  url : string;
  payload : option PatientForm
}.

Definition API_BASE_URL : string := "http://localhost:8001/api".

(** [form.id] as a condition: a missing id and the id 0 are falsy. *)
Definition formHasId (f : PatientForm) : option Z :=
  match form_id f with
  | Some i => if i =? 0 then None else Some i
  | None => None
  end.

Definition submitRequest (m : Management) : Request :=
  match formHasId (form m) with
  | Some i => {| method := PUT; url := API_BASE_URL +:+ "/patients/" +:+ pretty i;
                 payload := Some (form m) |}
  | None => {| method := POST; url := API_BASE_URL +:+ "/patients";
               payload := Some (form m) |}
  end.

Definition deleteRequest (patientId : Z) : Request :=
  {| method := DELETE; url := API_BASE_URL +:+ "/patients/" +:+ pretty patientId;
     payload := None |}.

Inductive Response : Type :=
  | Ok
  | NotOk (statusText : string)
  | Threw (err : string).

(** The handlers from the response on; the flag tells whether
    [onPatientUpdate] is called. *)
Definition handleSubmit (response : Response) (m : Management) : Management * bool :=
  match response with
  | Ok => (setForm emptyForm m, true)
  | NotOk statusText => (setError ("Failed to save patient: " +:+ statusText) m, false)
  | Threw err => (setError ("Network error saving patient: " +:+ err) m, false)
  end.

Definition handleDelete (response : Response) (m : Management) : Management * bool :=
  match response with
  | Ok => (m, true)
  | NotOk statusText => (setError ("Failed to delete patient: " +:+ statusText) m, false)
  | Threw err => (setError ("Network error deleting patient: " +:+ err) m, false)
  end.

(** The four inputs of the form, [{ ...form, field: value }]; the age
    arrives as [parseInt] read it. *)
Inductive Field : Type :=
  | HospitalId (value : string)
  | Name (value : string)
  | Age (value : number)
  | Sex (value : string).

Definition typeField (field : Field) (f : PatientForm) : PatientForm :=
  match field with
  | HospitalId value =>
      {| form_id := form_id f; form_hospital_id := value; form_name := form_name f;
         form_age := form_age f; form_sex := form_sex f |}
  | Name value =>
      {| form_id := form_id f; form_hospital_id := form_hospital_id f;
         form_name := value; form_age := form_age f; form_sex := form_sex f |}
  | Age value =>
      {| form_id := form_id f; form_hospital_id := form_hospital_id f;
         form_name := form_name f; form_age := value; form_sex := form_sex f |}
  | Sex value =>
      {| form_id := form_id f; form_hospital_id := form_hospital_id f;
         form_name := form_name f; form_age := form_age f; form_sex := value |}
  end.

(** What the user does after the list has been fetched. *)
Inductive Action : Type :=
  | Edit (p : PatientRef)
  | Type_ (field : Field)
  | Submit (response : Response)
  | Delete (patientId : Z) (response : Response).

Definition act (m : Management) (a : Action) : Management :=
  match a with
  | Edit p => handleEdit p m
  | Type_ field => setForm (typeField field (form m)) m
  | Submit response => (handleSubmit response m).1
  | Delete _ response => (handleDelete response m).1
  end.

Definition acts (actions : list Action) (m : Management) : Management :=
  foldl act m actions.

Definition listed_at_mount : Management :=
  {| patients := [asha]; loading := false; error := None; form := emptyForm |}.

End PatientManagement.

(** * Properties *)

Section DashboardProperties.
Import KitchenDashboard.

(** ** The summary lists *)

Lemma filter_complement_perm {A : Type} (keep : A -> bool) (l : list A) :
  List.filter keep l ++ List.filter (fun x => negb (keep x)) l ≡ₚ l.
Proof.
  induction l as [|x l IH]; simpl; [reflexivity|].
  destruct (keep x); simpl.
  - now rewrite IH.
  - rewrite <- Permutation_middle. now rewrite IH.
Qed.

Lemma collect_complement_perm (keep : MealPlanItem -> bool) (plans : list MealPlan) :
  collect keep plans ++ collect (fun it => negb (keep it)) plans ≡ₚ allEntries plans.
Proof.
  unfold collect, allEntries.
  induction plans as [|plan plans IH]; simpl; [reflexivity|].
  set (here := map (entry plan) (List.filter keep (items plan))).
  set (there := map (entry plan) (List.filter (fun it => negb (keep it)) (items plan))).
  transitivity ((here ++ there) ++ allEntries plans).
  - unfold allEntries. rewrite <- IH, <- !app_assoc.
    apply Permutation_app_head.
    rewrite !app_assoc. apply Permutation_app_tail, Permutation_app_comm.
  - apply Permutation_app_tail. subst here there.
    rewrite <- map_app. apply Permutation_map, filter_complement_perm.
Qed.

Lemma allEntries_length (plans : list MealPlan) :
  length (allEntries plans) = length (flat_map items plans).
Proof.
  unfold allEntries. induction plans as [|plan plans IH]; simpl; [reflexivity|].
  now rewrite !length_app, length_map, IH.
Qed.

Lemma filter_keeps_one {A : Type} (keep : A -> bool) (l : list A) (x : A) :
  In x l ->
  (In x (List.filter keep l) /\ ~ In x (List.filter (fun y => negb (keep y)) l))
  \/ (~ In x (List.filter keep l) /\ In x (List.filter (fun y => negb (keep y)) l)).
Proof.
  intros Hx. rewrite !filter_In.
  destruct (keep x) eqn:E; simpl; [left | right]; intuition congruence.
Qed.

(** C10.  The dashboard summary partitions the items: the prepared and the
    unprepared entries together are a rearrangement of all entries (so
    each item is listed in one of the two lists and not in both), likewise
    the delivered and the not-delivered entries, and the displayed counts
    add up to the number of items over all plans. *)
Theorem summary_partitions_items (plans : list MealPlan) :
  let sm := summary plans in
  (preparedItems sm ++ unpreparedItems sm ≡ₚ allEntries plans)
  /\ (deliveredItems sm ++ notDeliveredItems sm ≡ₚ allEntries plans)
  /\ (length (preparedItems sm) + length (unpreparedItems sm)
      = length (flat_map items plans))%nat
  /\ (length (deliveredItems sm) + length (notDeliveredItems sm)
      = length (flat_map items plans))%nat
  /\ (forall plan it, In plan plans -> In it (items plan) ->
        let here keep := In it (List.filter keep (items plan)) in
        ((here (fun i => prepared i) /\ ~ here (fun i => negb (prepared i)))
         \/ (~ here (fun i => prepared i) /\ here (fun i => negb (prepared i))))
        /\ ((here (fun i => delivered i) /\ ~ here (fun i => negb (delivered i)))
         \/ (~ here (fun i => delivered i) /\ here (fun i => negb (delivered i))))).
Proof.
  cbn zeta. unfold summary; cbn [preparedItems unpreparedItems deliveredItems notDeliveredItems].
  pose proof (collect_complement_perm (fun i => prepared i) plans) as Hp.
  pose proof (collect_complement_perm (fun i => delivered i) plans) as Hd.
  repeat split; try assumption.
  - rewrite <- length_app, <- allEntries_length. now apply Permutation_length.
  - rewrite <- length_app, <- allEntries_length. now apply Permutation_length.
  - now apply (filter_keeps_one (fun i => prepared i)).
  - now apply (filter_keeps_one (fun i => delivered i)).
Qed.

(** ** The view by meal category *)


Lemma shadow_free_empty {A : Type} : shadow_free (∅ : gmap string (list A)).
Proof. intros key _. apply lookup_empty. Qed.

Lemma shadow_free_insert {A : Type} (obj : gmap string (list A)) key l :
  inherited key = false -> shadow_free obj -> shadow_free (<[key := l]> obj).
Proof.
  intros Hkey Hobj k Hk. rewrite lookup_insert_ne; [now apply Hobj|].
  intros ->. congruence.
Qed.

Lemma inherited_key_cases {A : Type} (key : A -> string) (xs : list A) :
  (forall x, In x xs -> inherited (key x) = false)
  \/ (exists x, In x xs /\ inherited (key x) = true).
Proof.
  induction xs as [|x xs [IH | (bad & Hin & Hbad)]].
  - left. intros x [].
  - destruct (inherited (key x)) eqn:E.
    + right. exists x. split; [now left | assumption].
    + left. intros y [<- | Hin]; [assumption | now apply IH].
  - right. exists bad. split; [now right | assumption].
Qed.

(** A loop that pushes each element to the array under its key, creating
    the array at the first element of the key, and that throws at a key
    that reads an inherited value. *)
Section PushFold.

Context {A B : Type} (key : A -> string) (val : A -> B)
        (step : gmap string (list B) -> A -> option (gmap string (list B))).

Hypothesis step_read : forall acc x,
  step acc x
  = match read acc (key x) with
    | OwnArray l => Some (<[key x := l ++ [val x]]> acc)
    | Undefined => Some (<[key x := [val x]]> acc)
    | FromPrototype => None
    end.

Lemma step_pushes acc x :
  inherited (key x) = false ->
  step acc x = Some (<[key x := default [] (acc !! key x) ++ [val x]]> acc).
Proof.
  intros Hkey. rewrite step_read. unfold read.
  destruct (acc !! key x) as [l|]; [reflexivity|]. now rewrite Hkey.
Qed.

Lemma step_throws acc x :
  shadow_free acc -> inherited (key x) = true -> step acc x = None.
Proof.
  intros Hacc Hkey. rewrite step_read. unfold read.
  now rewrite (Hacc _ Hkey), Hkey.
Qed.

Lemma push_fold_defined xs : forall acc,
  shadow_free acc ->
  (forall x, In x xs -> inherited (key x) = false) ->
  exists acc',
    foldThrowing step acc xs = Some acc'
    /\ shadow_free acc'
    /\ forall c,
         acc' !! c
         = match map val (List.filter (fun x => bool_decide (key x = c)) xs) with
           | [] => acc !! c
           | added => Some (default [] (acc !! c) ++ added)
           end.
Proof.
  induction xs as [|x xs IH]; intros acc Hacc Hkeys.
  - exists acc. now repeat split.
  - assert (Hx : inherited (key x) = false) by (apply Hkeys; now left).
    destruct (IH (<[key x := default [] (acc !! key x) ++ [val x]]> acc))
      as (acc' & Hfold & Hfree & Hlookup).
    + now apply shadow_free_insert.
    + intros y Hy. apply Hkeys. now right.
    + exists acc'. split; [|split; [assumption|]].
      * cbn [foldThrowing]. now rewrite (step_pushes acc x Hx).
      * intros c. rewrite Hlookup. cbn [List.filter].
        case_bool_decide as Hc.
        -- subst c. rewrite lookup_insert_eq. cbn [map default].
           destruct (map val (List.filter _ xs)) as [|y ys]; [reflexivity|].
           simpl. now rewrite <- app_assoc.
        -- now rewrite lookup_insert_ne.
Qed.

Lemma push_fold_throws xs : forall acc,
  shadow_free acc ->
  (exists x, In x xs /\ inherited (key x) = true) ->
  foldThrowing step acc xs = None.
Proof.
  induction xs as [|x xs IH]; intros acc Hacc (bad & Hin & Hbad); [destruct Hin|].
  cbn [foldThrowing]. destruct (inherited (key x)) eqn:Hx.
  - now rewrite (step_throws acc x Hacc Hx).
  - rewrite (step_pushes acc x Hx). apply IH.
    + now apply shadow_free_insert.
    + destruct Hin as [-> | Hin]; [congruence|]. now exists bad.
Qed.

End PushFold.

Lemma push_item_read p (acc : gmap string (list GroupedItem)) it :
  push_item p acc it
  = match read acc (meal_category it) with
    | OwnArray l => Some (<[meal_category it := l ++ [augment p it]]> acc)
    | Undefined => Some (<[meal_category it := [augment p it]]> acc)
    | FromPrototype => None
    end.
Proof.
  unfold push_item, read.
  destruct (acc !! meal_category it) as [l|] eqn:E.
  - now rewrite E.
  - destruct (inherited (meal_category it)).
    + now rewrite E.
    + rewrite lookup_insert_eq. now rewrite insert_insert_eq.
Qed.


Lemma add_plan_defined (acc : gmap string (list GroupedItem)) plan :
  shadow_free acc ->
  (forall it, is_Some (patient plan) -> In it (items plan) -> ordinary it) ->
  exists acc',
    add_plan acc plan = Some acc'
    /\ shadow_free acc'
    /\ forall c,
         acc' !! c
         = match contribution c plan with
           | [] => acc !! c
           | added => Some (default [] (acc !! c) ++ added)
           end.
Proof.
  intros Hacc Hkeys. unfold add_plan, contribution.
  destruct (patient plan) as [p|].
  - apply (push_fold_defined meal_category (augment p) (push_item p) (push_item_read p));
      [assumption|].
    intros it Hit. apply Hkeys; [now eexists | assumption].
  - exists acc. now repeat split.
Qed.

Lemma add_plan_throws (acc : gmap string (list GroupedItem)) plan :
  shadow_free acc -> is_Some (patient plan) ->
  (exists it, In it (items plan) /\ inherited (meal_category it) = true) ->
  add_plan acc plan = None.
Proof.
  intros Hacc [p Hp] Hbad. unfold add_plan. rewrite Hp.
  now apply (push_fold_throws meal_category (augment p) (push_item p) (push_item_read p)).
Qed.

Lemma add_plans_defined plans : forall acc : gmap string (list GroupedItem),
  shadow_free acc -> own_keys_only plans ->
  exists acc',
    foldThrowing add_plan acc plans = Some acc'
    /\ shadow_free acc'
    /\ forall c,
         acc' !! c
         = match flat_map (contribution c) plans with
           | [] => acc !! c
           | added => Some (default [] (acc !! c) ++ added)
           end.
Proof.
  induction plans as [|plan plans IH]; intros acc Hacc Hkeys.
  - exists acc. now repeat split.
  - destruct (add_plan_defined acc plan Hacc) as (acc1 & Hplan & Hfree1 & Hlookup1).
    { intros it Hp Hit. apply (Hkeys plan it); [now left | assumption..]. }
    destruct (IH acc1 Hfree1) as (acc' & Hfold & Hfree & Hlookup).
    { intros plan' it Hin. apply Hkeys. now right. }
    exists acc'. split; [|split; [assumption|]].
    + cbn [foldThrowing]. now rewrite Hplan.
    + intros c. rewrite Hlookup, Hlookup1. cbn [flat_map].
      destruct (contribution c plan) as [|g gs]; [reflexivity|].
      destruct (flat_map (contribution c) plans) as [|h hs].
      * now rewrite app_nil_r.
      * simpl. now rewrite <- app_assoc.
Qed.

Lemma add_plans_throw plans : forall acc : gmap string (list GroupedItem),
  shadow_free acc ->
  (exists plan it, In plan plans /\ is_Some (patient plan) /\ In it (items plan)
                   /\ inherited (meal_category it) = true) ->
  foldThrowing add_plan acc plans = None.
Proof.
  induction plans as [|plan plans IH];
    intros acc Hacc (owner & bad & Hin & Hp & Hit & Hbad); [destruct Hin|].
  cbn [foldThrowing]. destruct (add_plan acc plan) as [acc1|] eqn:Hplan; [|reflexivity].
  assert (Hhere : forall it, is_Some (patient plan) -> In it (items plan) -> ordinary it).
  { intros it Hp' Hit'. unfold ordinary.
    destruct (inherited (meal_category it)) eqn:E; [|reflexivity].
    rewrite (add_plan_throws acc plan Hacc Hp') in Hplan; [discriminate Hplan|].
    now exists it. }
  destruct (add_plan_defined acc plan Hacc Hhere) as (acc1' & Hplan' & Hfree1 & _).
  rewrite Hplan in Hplan'. injection Hplan' as <-.
  apply IH; [assumption|].
  destruct Hin as [-> | Hin].
  - specialize (Hhere bad Hp Hit). unfold ordinary in Hhere. congruence.
  - now exists owner, bad.
Qed.

(** When no grouped item has an inherited name as its category, the view
    is computed, and each of its groups is, in order, what the plans with
    a patient contribute to it. *)
Lemma groupedMealItems_defined plans :
  own_keys_only plans ->
  exists grouped,
    groupedMealItems plans = Some grouped
    /\ forall c,
         grouped !! c
         = match flat_map (contribution c) plans with
           | [] => None
           | g :: l => Some (g :: l)
           end.
Proof.
  intros Hkeys. unfold groupedMealItems.
  destruct (add_plans_defined plans ∅ shadow_free_empty Hkeys)
    as (grouped & Hfold & _ & Hlookup).
  exists grouped. split; [assumption|].
  intros c. rewrite Hlookup, lookup_empty. reflexivity.
Qed.

Lemma group_of_lookup (grouped : gmap string (list GroupedItem)) c contributed :
  grouped !! c = match contributed with [] => None | g :: l => Some (g :: l) end ->
  group grouped c = contributed.
Proof. unfold group. intros ->. now destruct contributed. Qed.

(** Computing the view throws exactly when an item of a plan with a
    patient has an inherited name as its category. *)
Lemma groupedMealItems_throws plans :
  groupedMealItems plans = None
  <-> exists plan it, In plan plans /\ is_Some (patient plan) /\ In it (items plan)
                      /\ inherited (meal_category it) = true.
Proof.
  split.
  - intros Hnone.
    assert (Hcases : forall (plans : list MealPlan),
               own_keys_only plans
               \/ exists plan it, In plan plans /\ is_Some (patient plan)
                                  /\ In it (items plan)
                                  /\ inherited (meal_category it) = true).
    { clear. induction plans as [|plan plans [IH | (owner & bad & Hin & Hrest)]].
      - left. intros plan it [].
      - pose proof (inherited_key_cases meal_category (items plan)) as Hitems.
        destruct (patient plan) as [p|] eqn:Hp.
        + destruct Hitems as [Hall | (bad & Hin & Hbad)].
          * left. intros plan' it [<- | Hin] Hp' Hit; [now apply Hall|].
            now apply (IH plan' it).
          * right. exists plan, bad. repeat split; [now left | now rewrite Hp | assumption..].
        + left. intros plan' it [<- | Hin] Hp' Hit.
          * rewrite Hp in Hp'. now destruct Hp'.
          * now apply (IH plan' it).
      - right. exists owner, bad. split; [now right | assumption]. }
    destruct (Hcases plans) as [Hkeys | Hbad]; [|assumption].
    destruct (groupedMealItems_defined plans Hkeys) as (grouped & Hsome & _).
    congruence.
  - apply add_plans_throw, shadow_free_empty.
Qed.

Lemma groupedMealItems_defined_iff plans :
  is_Some (groupedMealItems plans) <-> own_keys_only plans.
Proof.
  split.
  - intros [grouped Hsome] plan it Hin Hp Hit. unfold ordinary.
    destruct (inherited (meal_category it)) eqn:E; [|reflexivity].
    assert (Hnone : groupedMealItems plans = None)
      by (apply groupedMealItems_throws; now exists plan, it).
    congruence.
  - intros Hkeys. destruct (groupedMealItems_defined plans Hkeys) as (grouped & Hsome & _).
    now exists grouped.
Qed.




(** ** Status updates *)

Lemma update_item_twice itemId type v it :
  update_item itemId type v (update_item itemId type v it)
  = update_item itemId type v it.
Proof.
  unfold update_item. destruct (id it =? itemId) eqn:E.
  - destruct type; simpl; rewrite E; reflexivity.
  - now rewrite E.
Qed.

Lemma update_plans_twice itemId type v plans :
  update_plans itemId type v (update_plans itemId type v plans)
  = update_plans itemId type v plans.
Proof.
  unfold update_plans. rewrite map_map. apply map_ext. intros plan.
  unfold update_plan; simpl. f_equal.
  rewrite map_map. apply map_ext. intros it. apply update_item_twice.
Qed.

Lemma update_item_same itemId type v it :
  (id it = itemId -> get_status type it = v) -> update_item itemId type v it = it.
Proof.
  unfold update_item. intros H. destruct (Z.eqb_spec (id it) itemId) as [E|E]; [|reflexivity].
  specialize (H E). destruct it, type; simpl in *; now subst.
Qed.

Lemma update_plans_same itemId type v plans :
  (forall it, In it (flat_map items plans) -> id it = itemId -> get_status type it = v) ->
  update_plans itemId type v plans = plans.
Proof.
  intros H. unfold update_plans.
  rewrite <- (map_id plans) at 2. apply map_ext_in. intros plan Hplan.
  destruct plan as [pid ts pt its]; unfold update_plan; simpl. f_equal.
  rewrite <- (map_id its) at 2. apply map_ext_in. intros it Hit.
  apply update_item_same, H, in_flat_map. exists (mkPlan pid ts pt its). now split.
Qed.

Lemma update_item_flags itemId type v it :
  if id it =? itemId
  then get_status type (update_item itemId type v it) = v
       /\ get_status (other type) (update_item itemId type v it)
          = get_status (other type) it
       /\ same_dish it (update_item itemId type v it)
  else update_item itemId type v it = it.
Proof.
  unfold update_item, same_dish. destruct (id it =? itemId); [|reflexivity].
  destruct type; simpl; repeat split; reflexivity.
Qed.

(** C1, as specified, does not hold: the dashboard does not keep the flag
    invariant.  One accepted "delivered" tick on the pending sample item
    leaves it delivered and not prepared. *)
Lemma delivered_tick_on_pending_breaks_invariant :
  pending rice_item
  /\ all_items (handleStatusChange 1 Delivered true PatchOk sample_dashboard)
     = [ {| id := 1; meal_category := "Breakfast"; food_name := "Rice";
            quantity := Fin 2; prepared := false; delivered := true |};
         {| id := 2; meal_category := "Lunch"; food_name := "Dal";
            quantity := Fin 1; prepared := true; delivered := false |} ]
  /\ ~ flags_invariant_holds.
Proof.
  split; [now split|]. split; [reflexivity|].
  intros Hinv.
  set (s0 := {| mealPlans := [rice_plan]; loading := false; error := None;
                selectedDate := "2025-01-05"; displayMode := patientView |}).
  assert (Hfresh : forall it, In it (all_items s0) -> pending it).
  { intros it [<-|[]]. now split. }
  specialize (Hinv s0 [mkUpdate 1 Delivered true PatchOk] Hfresh
                (update_item 1 Delivered true rice_item) (or_introl eq_refl)).
  now specialize (Hinv eq_refl).
Qed.

(** C1, as the dashboard behaves: an accepted status update sets the named
    flag of the items with the given id and keeps their other flag and
    their other fields, every other item and every plan stay as they are;
    an update that is refused or fails changes no item.  So an accepted
    "delivered" tick on a pending item gives delivered and not prepared. *)
Theorem status_update_sets_only_named_flag
    (itemId : Z) (type : StatusField) (newStatus : bool)
    (response : PatchResponse) (s : Dashboard) :
  let s' := handleStatusChange itemId type newStatus response s in
  match response with
  | PatchOk =>
      Forall2 (fun plan plan' =>
                 plan_id plan' = plan_id plan /\ timestamp plan' = timestamp plan
                 /\ patient plan' = patient plan
                 /\ Forall2 (fun it it' =>
                       if id it =? itemId
                       then get_status type it' = newStatus
                            /\ get_status (other type) it' = get_status (other type) it
                            /\ same_dish it it'
                       else it' = it)
                     (items plan) (items plan'))
              (mealPlans s) (mealPlans s')
      /\ error s' = error s
  | _ => mealPlans s' = mealPlans s
  end
  /\ (forall it, pending it -> id it = itemId ->
       delivered (update_item itemId Delivered true it) = true
       /\ prepared (update_item itemId Delivered true it) = false).
Proof.
  cbn zeta. split.
  - destruct response; simpl; try reflexivity. split; [|reflexivity].
    unfold update_plans. induction (mealPlans s) as [|plan plans IH]; simpl; constructor; [|exact IH].
    repeat split. simpl.
    induction (items plan) as [|it its IHi]; simpl; constructor; [|exact IHi].
    apply update_item_flags.
  - intros it [Hp Hd] Hid. unfold update_item.
    rewrite (proj2 (Z.eqb_eq _ _) Hid). simpl. now split.
Qed.

(** C7.  Marking an item prepared is idempotent: a second accepted
    "prepared" tick leaves the dashboard exactly as the first one did, and
    on items that are already prepared the accepted tick changes nothing
    and reports no error. *)
Theorem markPrepared_idempotent (itemId : Z) (s : Dashboard) :
  let once := handleStatusChange itemId Prepared true PatchOk s in
  handleStatusChange itemId Prepared true PatchOk once = once
  /\ error once = error s
  /\ ((forall it, In it (all_items s) -> id it = itemId -> prepared it = true) ->
      once = s).
Proof.
  cbn zeta. unfold handleStatusChange; simpl. repeat split.
  - now rewrite update_plans_twice.
  - intros Hprep. destruct s as [plans ld err dt dm]; simpl in *.
    f_equal. apply update_plans_same. intros it Hit Hid. simpl. now apply Hprep.
Qed.

End DashboardProperties.

Section PlannerProperties.
Import Planner.

Variable parseFloat : string -> number.
Variable numberToString : number -> string.

(** ** Comparisons with zero *)


Lemma gt_zero_Fin q : gt (Fin q) zero = true <-> (0 < q)%Q.
Proof.
  unfold gt, lt, zero. rewrite Qlt_alt. destruct (0 ?= q)%Q; intuition discriminate.
Qed.


Lemma sign_cases x :
  isNaN x = false ->
  (lt x zero = true /\ gt x zero = false /\ strict_eq x zero = false)
  \/ (lt x zero = false /\ gt x zero = true /\ strict_eq x zero = false)
  \/ (lt x zero = false /\ gt x zero = false /\ strict_eq x zero = true).
Proof.
  destruct x as [| |q|]; simpl; try discriminate; intros _.
  - left. repeat split.
  - unfold gt, lt, strict_eq, zero. rewrite <- (Qcompare_antisym q 0).
    destruct (q ?= 0)%Q; simpl; intuition.
  - right. left. repeat split.
Qed.

Lemma gt_zero_number x :
  gt x zero = true ->
  isNaN x = false /\ lt x zero = false /\ strict_eq x zero = false
  /\ le x zero = false.
Proof.
  intros H. assert (Hn : isNaN x = false) by (destruct x; [discriminate H|..]; reflexivity).
  unfold le. destruct (sign_cases x Hn) as [(?&?&?)|[(-> & ? & ->)|(?&?&?)]];
    [congruence | auto | congruence].
Qed.

(** ** The menu selection *)

Lemma changeQuantity_positive foodName qty foods :
  isNaN qty = false -> lt qty zero = false ->
  Forall positive foods -> Forall positive (changeQuantity foodName qty foods).
Proof.
  intros Hn Hlt Hall. unfold changeQuantity.
  destruct (findIndex (named foodName) foods) as [i|].
  - destruct (strict_eq qty zero) eqn:Hz.
    + now apply Forall_delete.
    + apply Forall_alter; [assumption|]. intros entry _ _.
      change (gt qty zero = true).
      destruct (sign_cases qty Hn) as [(?&?&?)|[(?&?&?)|(?&?&?)]]; congruence.
  - destruct (gt qty zero) eqn:Hg; [|assumption].
    apply Forall_app. split; [assumption|]. now repeat constructor.
Qed.

Lemma selected_quantity_cases foodName s :
  Forall positive (selectedFoods s) ->
  gt (getSelectedFoodQuantity foodName s) zero = true
  \/ getSelectedFoodQuantity foodName s = zero.
Proof.
  intros Hall. unfold getSelectedFoodQuantity.
  destruct (List.find (named foodName) (selectedFoods s)) as [food|] eqn:E; [left | now right].
  apply find_some in E as [Hin _].
  rewrite Forall_forall in Hall. apply Hall. now apply list_elem_of_In.
Qed.

Lemma addToCategory_positive foodName quantity mealCategory plan updated :
  gt quantity zero = true ->
  addToCategory foodName quantity mealCategory plan = Some updated ->
  (forall category foods, plan !! category = Some foods -> Forall positive foods) ->
  forall category foods, updated !! category = Some foods -> Forall positive foods.
Proof.
  intros Hq Hadd Hall category foods. unfold addToCategory in Hadd.
  destruct (plan !! mealCategory) as [categoryFoods|] eqn:E; [|discriminate].
  injection Hadd as <-.
  destruct (decide (mealCategory = category)) as [->|Hne].
  - rewrite lookup_insert_eq. intros [= <-].
    specialize (Hall _ _ E).
    destruct (findIndex (named foodName) categoryFoods) as [i|].
    + apply Forall_alter; [assumption|]. now intros.
    + apply Forall_app. split; [assumption|]. now repeat constructor.
  - rewrite lookup_insert_ne by assumption. apply Hall.
Qed.

Lemma menuStep_keeps_invariant s e s' :
  offered e -> menuStep parseFloat numberToString s e = Some s' ->
  quantities_positive s /\ categories_present s ->
  quantities_positive s' /\ categories_present s'.
Proof.
  intros Hoff Hstep [[Hsel Hplan] [Hcat Hkeys]].
  destruct e as [foodName value | c | foodName]; simpl in Hstep.
  - injection Hstep as <-. unfold handleFoodQuantityChange.
    destruct (isNaN (parseFloat value)) eqn:Hn; simpl; [now repeat split|].
    destruct (lt (parseFloat value) zero) eqn:Hlt; simpl; [now repeat split|].
    repeat split; simpl; try assumption.
    now apply changeQuantity_positive.
  - injection Hstep as <-. now repeat split.
  - unfold handleAddToMeal in Hstep.
    destruct (selected_quantity_cases foodName s Hsel) as [Hpos | Hzero].
    + destruct (gt_zero_number _ Hpos) as (_ & _ & _ & Hle). rewrite Hle in Hstep.
      destruct (addToCategory _ _ _ _) as [updated|] eqn:Hadd; [|discriminate].
      injection Hstep as <-. repeat split; simpl; try assumption.
      * now apply (addToCategory_positive _ _ _ _ _ Hpos Hadd).
      * intros c Hc. unfold addToCategory in Hadd.
        destruct (mealPlan s !! selectedMealCategory s); [|discriminate].
        injection Hadd as <-. apply lookup_insert_is_Some'. right. now apply Hkeys.
    + rewrite Hzero in Hstep. simpl in Hstep. injection Hstep as <-.
      now repeat split.
Qed.

Lemma initial_invariant :
  quantities_positive initialApp /\ categories_present initialApp.
Proof.
  repeat split; simpl.
  - constructor.
  - intros category foods H. unfold initialMealPlan in H.
    repeat (apply lookup_insert_Some in H as [[_ <-]|[_ H]]; [constructor|]).
    now rewrite lookup_empty in H.
  - now left.
  - intros c Hc. simpl in Hc.
    destruct Hc as [<-|[<-|[<-|[<-|[<-|[]]]]]]; now eexists.
Qed.

Lemma reachable_invariant s :
  reachable parseFloat numberToString s ->
  quantities_positive s /\ categories_present s.
Proof.
  induction 1 as [|s e s' _ IH Hoff Hstep].
  - apply initial_invariant.
  - now apply (menuStep_keeps_invariant s e s').
Qed.

Lemma menuStep_defined s e :
  quantities_positive s /\ categories_present s ->
  is_Some (menuStep parseFloat numberToString s e).
Proof.
  intros [_ [Hcat Hkeys]]. destruct e as [foodName value | c | foodName]; simpl; try now eexists.
  unfold handleAddToMeal. destruct (le _ zero); [now eexists|].
  unfold addToCategory. destruct (Hkeys _ Hcat) as [foods ->]. now eexists.
Qed.

Lemma find_after_alter foodName qty foods : forall i,
  findIndex (named foodName) foods = Some i ->
  exists entry, List.find (named foodName) (alter (with_quantity qty) i foods) = Some entry
                /\ quantity entry = qty.
Proof.
  induction foods as [|x foods IH]; intros i; simpl; [discriminate|].
  destruct (named foodName x) eqn:Hx.
  - intros [= <-]. simpl. unfold named in *. simpl. rewrite Hx. now eexists.
  - destruct (findIndex (named foodName) foods) as [j|]; simpl; [|discriminate].
    intros [= <-]. simpl. rewrite Hx. now apply IH.
Qed.

Lemma find_after_append foodName qty foods :
  findIndex (named foodName) foods = None ->
  List.find (named foodName) (foods ++ [ {| food_name := foodName; quantity := qty |} ])
  = Some {| food_name := foodName; quantity := qty |}.
Proof.
  induction foods as [|x foods IH]; simpl.
  - intros _. unfold named; simpl. now rewrite String.eqb_refl.
  - destruct (named foodName x); [discriminate|].
    destruct (findIndex (named foodName) foods); simpl; [discriminate|].
    intros _. now apply IH.
Qed.

(** C6.  In every state of the menu form that the quantity fields, the
    category drop-down and the "Add to Meal" buttons lead to, every entry
    of the selection and of every category of the plan has a quantity
    above 0, and every further action is defined.  On a quantity field, an
    input that is not a number or is negative changes nothing, a zero
    removes the entry of that food, and a positive rational, whole or
    not, becomes the quantity of that food. *)
Theorem menu_quantities_stay_positive (s : App)
    (Hreach : reachable parseFloat numberToString s) :
  quantities_positive s
  /\ (forall e, is_Some (menuStep parseFloat numberToString s e))
  /\ (forall foodName value,
        let qty := parseFloat value in
        let s' := handleFoodQuantityChange parseFloat foodName value s in
        (isNaN qty = true \/ lt qty zero = true -> s' = s)
        /\ (strict_eq qty zero = true ->
            forall i, findIndex (named foodName) (selectedFoods s) = Some i ->
                      selectedFoods s' = delete i (selectedFoods s))
        /\ (forall q, qty = Fin q -> (0 < q)%Q ->
            getSelectedFoodQuantity foodName s' = Fin q)).
Proof.
  pose proof (reachable_invariant s Hreach) as Hinv.
  split; [apply Hinv|]. split; [intros e; now apply menuStep_defined|].
  intros foodName value qty s'. subst s'. unfold handleFoodQuantityChange. fold qty.
  repeat split.
  - intros [-> | Hlt]; [reflexivity|]. rewrite Hlt. now rewrite orb_true_r.
  - intros Hz i Hi.
    assert (Hn : isNaN qty = false) by (destruct qty; [discriminate Hz|..]; reflexivity).
    destruct (sign_cases qty Hn) as [(?&?&?)|[(?&?&?)|(Hlt&?&?)]]; try congruence.
    rewrite Hn, Hlt. simpl. unfold changeQuantity. now rewrite Hi, Hz.
  - intros q Hq Hpos. apply gt_zero_Fin in Hpos. rewrite <- Hq in Hpos.
    destruct (gt_zero_number _ Hpos) as (Hn & Hlt & Hz & _).
    rewrite Hn, Hlt. cbn [orb]. rewrite <- Hq.
    unfold getSelectedFoodQuantity, setSelectedFoods, changeQuantity.
    cbn [selectedFoods].
    destruct (findIndex (named foodName) (selectedFoods s)) as [i|] eqn:Hi.
    + rewrite Hz. destruct (find_after_alter foodName qty _ i Hi) as (entry & -> & Hqty).
      exact Hqty.
    + rewrite Hpos. now rewrite find_after_append.
Qed.


(** ** Sending the plan to the kitchen *)

Lemma everyCategoryEmpty_true (plan : gmap string (list SelectedFood)) :
  everyCategoryEmpty plan = true
  <-> (forall category foods, plan !! category = Some foods -> foods = []).
Proof.
  unfold everyCategoryEmpty. rewrite forallb_forall. split.
  - intros H category foods Hlook.
    assert (Hin : In foods (map_to_list plan).*2).
    { apply list_elem_of_In, list_elem_of_fmap. exists (category, foods).
      split; [reflexivity|]. now apply elem_of_map_to_list. }
    specialize (H _ Hin). apply Nat.eqb_eq in H. now destruct foods.
  - intros H foods Hin.
    apply list_elem_of_In, list_elem_of_fmap in Hin as ([category foods'] & -> & Hin).
    apply elem_of_map_to_list in Hin. simpl. now rewrite (H _ _ Hin).
Qed.

Lemma everyCategoryEmpty_false (plan : gmap string (list SelectedFood)) category foods :
  plan !! category = Some foods -> foods <> [] -> everyCategoryEmpty plan = false.
Proof.
  intros Hlook Hne. destruct (everyCategoryEmpty plan) eqn:E; [|reflexivity].
  rewrite everyCategoryEmpty_true in E. now specialize (E _ _ Hlook).
Qed.

(** C5, as specified, does not hold: a plan with a non-empty category is not
    always sent.  With rice for breakfast and no patient selected the
    handler returns before its request. *)
Lemma nonempty_plan_without_patient_not_sent :
  mealPlan plan_without_patient !! "Breakfast"
  = Some [ {| food_name := "Rice"; quantity := Fin 2 |} ]
  /\ kitchenRequest plan_without_patient
     = Stay (setMessage "Please select a patient." plan_without_patient)
  /\ ~ sends_every_nonempty_plan.
Proof.
  assert (Hreq : kitchenRequest plan_without_patient
                 = Stay (setMessage "Please select a patient." plan_without_patient)).
  { unfold kitchenRequest.
    rewrite (everyCategoryEmpty_false _ "Breakfast" [ {| food_name := "Rice"; quantity := Fin 2 |} ]);
      [reflexivity | reflexivity | discriminate]. }
  split; [reflexivity|]. split; [exact Hreq|].
  intros Hclaim. destruct (Hclaim plan_without_patient) as [_ Hsend].
  destruct Hsend as (request & Hsent & _).
  - apply (everyCategoryEmpty_false _ "Breakfast" [ {| food_name := "Rice"; quantity := Fin 2 |} ]);
      [reflexivity | discriminate].
  - rewrite Hreq in Hsent. discriminate Hsent.
Qed.

(** C5, as the handler behaves: when every category of the plan is empty
    nothing is sent, whatever the server would answer, and only the
    message changes; when some category has an item, the request is sent
    exactly when a patient is selected, and it carries that patient and
    the whole plan; with no patient selected nothing is sent either. *)
Theorem send_to_kitchen_needs_items_and_patient (s : App) :
  ((forall category foods, mealPlan s !! category = Some foods -> foods = []) ->
     kitchenRequest s
     = Stay (setMessage
               "Meal plan is empty. Please add items before sending to kitchen." s)
     /\ forall server, handleSendToKitchen server s
        = setMessage "Meal plan is empty. Please add items before sending to kitchen." s)
  /\ (forall category foods, mealPlan s !! category = Some foods -> foods <> [] ->
       (forall patientId, selectedPatient s = Some patientId -> patientId <> 0 ->
          kitchenRequest s
          = Send {| patient_id := patientId; meal_plan := mealPlan s |})
       /\ (noPatient (selectedPatient s) = true ->
           kitchenRequest s = Stay (setMessage "Please select a patient." s)
           /\ forall server, handleSendToKitchen server s
              = setMessage "Please select a patient." s)).
Proof.
  split.
  - intros Hempty. apply everyCategoryEmpty_true in Hempty.
    unfold handleSendToKitchen, kitchenRequest. rewrite Hempty. now split.
  - intros category foods Hlook Hne.
    pose proof (everyCategoryEmpty_false _ _ _ Hlook Hne) as Hsome.
    unfold handleSendToKitchen, kitchenRequest. rewrite Hsome. split.
    + intros patientId -> Hid. apply Z.eqb_neq in Hid. now rewrite Hid.
    + unfold noPatient. destruct (selectedPatient s) as [patientId|].
      * intros ->. now split.
      * intros _. now split.
Qed.

(** ** The status column *)


End PlannerProperties.

(** ** The engine *)

Section EngineProperties.
Import Engine.
Local Open Scope Q_scope.

Lemma resolve_missing catalog menu :
  (exists name q, In (name, q) menu /\ getFood catalog name = None) ->
  exists foodName,
    resolve catalog menu = inl (FoodNotFoundError foodName)
    /\ (exists q, In (foodName, q) menu)
    /\ getFood catalog foodName = None.
Proof.
  induction menu as [|[name0 q0] menu IH]; intros (name & q & Hin & Hnone).
  - destruct Hin.
  - simpl. destruct (getFood catalog name0) as [food|] eqn:Hfood.
    + destruct Hin as [Heq | Hin]; [injection Heq as -> _; congruence|].
      destruct IH as (foodName & -> & (q' & Hin') & Hnone'); [now exists name, q|].
      exists foodName. split; [reflexivity|]. split; [|assumption].
      exists q'. now right.
    + exists name0. split; [reflexivity|]. split; [|assumption].
      exists q0. now left.
Qed.

Lemma resolve_scale k catalog menu :
  resolve catalog (scale_menu k menu)
  = match resolve catalog menu with
    | inl e => inl e
    | inr resolved => inr (scale_lines k resolved)
    end.
Proof.
  induction menu as [|[name q] menu IH]; [reflexivity|].
  change (scale_menu k ((name, q) :: menu)) with ((name, k * q) :: scale_menu k menu).
  cbn [resolve]. destruct (getFood catalog name); [|reflexivity].
  rewrite IH. now destruct (resolve catalog menu).
Qed.

Lemma add_known_scaled k t' t c' c :
  scaled_by k t' t -> scaled_by k c' c -> scaled_by k (add_known t' c') (add_known t c).
Proof.
  destruct t', t, c', c; simpl; try tauto.
  intros -> ->. ring.
Qed.

Lemma contribution_scaled k nutrient line :
  scaled_by k (contribution nutrient (prod_map id (Qmult k) line))
              (contribution nutrient line).
Proof.
  destruct line as [food q]. unfold contribution; simpl.
  destruct (nutrients food !! nutrient); simpl; [ring | exact I].
Qed.

Lemma total_of_scale k nutrient resolved :
  scaled_by k (total_of (scale_lines k resolved) nutrient) (total_of resolved nutrient).
Proof.
  unfold total_of, scale_lines.
  assert (Hstart : scaled_by k (Some 0) (Some 0)) by (simpl; ring).
  revert Hstart. generalize (Some 0) at 1 3. generalize (Some 0).
  induction resolved as [|line resolved IH]; intros t t' Hstart; simpl; [assumption|].
  apply IH, add_known_scaled; [assumption | apply contribution_scaled].
Qed.

Lemma lookup_totals_of catalog resolved nutrient :
  totals_of catalog resolved !! nutrient
  = if decide (nutrient ∈ nutrient_columns catalog)
    then Some (total_of resolved nutrient) else None.
Proof.
  unfold totals_of. rewrite map_lookup_imap, lookup_gset_to_gmap.
  destruct (decide (nutrient ∈ nutrient_columns catalog)) as [Hin|Hout].
  - now rewrite option_guard_True.
  - now rewrite option_guard_False.
Qed.

Lemma dom_totals_of catalog resolved :
  dom (totals_of catalog resolved) = nutrient_columns catalog.
Proof.
  apply set_eq. intros nutrient. rewrite elem_of_dom, lookup_totals_of.
  destruct (decide (nutrient ∈ nutrient_columns catalog)) as [Hin|Hout].
  - split; [intros _; assumption | intros _; now eexists].
  - split; [intros [x Hx]; discriminate | intros H; contradiction].
Qed.

(** A column of the catalog is a nutrient that some food of the catalog
    has a value for. *)
Lemma elem_of_nutrient_columns catalog nutrient :
  nutrient ∈ nutrient_columns catalog
  <-> exists name food, catalog !! name = Some food
                        /\ is_Some (nutrients food !! nutrient).
Proof.
  unfold nutrient_columns. rewrite elem_of_union_list. split.
  - intros (X & HX & Hin). apply list_elem_of_fmap in HX as ([name food] & -> & Hentry).
    apply elem_of_map_to_list in Hentry. exists name, food.
    split; [assumption | now apply elem_of_dom].
  - intros (name & food & Hfood & Hvalue).
    exists (dom (nutrients food)). split; [|now apply elem_of_dom].
    apply list_elem_of_fmap. exists (name, food). split; [reflexivity|].
    now apply elem_of_map_to_list.
Qed.

Lemma fold_unknown nutrient resolved :
  foldl (fun total line => add_known total (contribution nutrient line)) None resolved
  = None.
Proof. induction resolved as [|line resolved IH]; simpl; [reflexivity | exact IH]. Qed.

(** Unknown dominates: one selected food without a value for the nutrient
    makes the total unknown, whatever the other foods have. *)
Lemma total_unknown_dominates nutrient resolved line :
  In line resolved -> nutrients line.1 !! nutrient = None ->
  total_of resolved nutrient = None.
Proof.
  unfold total_of. generalize (Some 0).
  induction resolved as [|line0 resolved IH]; intros start Hin Hnone; [destruct Hin|].
  simpl. destruct Hin as [-> | Hin].
  - unfold contribution at 2. rewrite Hnone. simpl.
    destruct start; simpl; apply fold_unknown.
  - now apply IH.
Qed.

Lemma total_unknown_inv nutrient resolved :
  total_of resolved nutrient = None ->
  exists line, In line resolved /\ nutrients line.1 !! nutrient = None.
Proof.
  unfold total_of. generalize 0.
  induction resolved as [|line resolved IH]; intros start; simpl; [discriminate|].
  destruct (nutrients line.1 !! nutrient) as [amount|] eqn:Hn.
  - unfold contribution at 2. rewrite Hn. simpl. intros H.
    destruct (IH _ H) as (line' & Hin & Hnone). exists line'. split; [now right | assumption].
  - intros _. exists line. split; [now left | assumption].
Qed.

Lemma aggregate_inr catalog menu items totals :
  aggregate catalog menu = inr (items, totals) ->
  exists resolved,
    resolve catalog menu = inr resolved /\ totals = totals_of catalog resolved.
Proof.
  unfold aggregate. destruct (resolve catalog menu) as [e|resolved]; [discriminate|].
  intros [= _ <-]. now exists resolved.
Qed.

Lemma resolve_line_origin catalog menu : forall resolved line,
  resolve catalog menu = inr resolved -> In line resolved ->
  exists name, In (name, line.2) menu /\ getFood catalog name = Some line.1.
Proof.
  induction menu as [|[name q] menu IH]; simpl; intros resolved line.
  - intros [= <-] [].
  - destruct (getFood catalog name) as [food|] eqn:Hfood; [|discriminate].
    destruct (resolve catalog menu) as [e|rest]; [discriminate|].
    intros [= <-] [<- | Hin].
    + exists name. split; [now left | assumption].
    + destruct (IH rest line eq_refl Hin) as (name' & Hin' & Hfood').
      exists name'. split; [now right | assumption].
Qed.

(** C8.  Aggregation is linear in the quantities: over a catalog in which
    every selected food has a value for every nutrient of the totals,
    doubling every quantity of the menu gives totals for the same
    nutrients, each exactly twice the total of the original menu. *)
Theorem aggregate_doubles_with_quantities
    (catalog : gmap string FoodRecord) (menu : list (string * Q))
    (items : list ResolvedItem) (totals : gmap string (option Q))
    (Haggregate : aggregate catalog menu = inr (items, totals))
    (Hcomplete : forall name q food,
        In (name, q) menu -> getFood catalog name = Some food ->
        forall nutrient, nutrient ∈ dom totals ->
                         is_Some (nutrients food !! nutrient)) :
  exists items' totals',
    aggregate catalog (scale_menu 2 menu) = inr (items', totals')
    /\ dom totals' = dom totals
    /\ forall nutrient, nutrient ∈ dom totals ->
         exists t t', totals !! nutrient = Some (Some t)
                      /\ totals' !! nutrient = Some (Some t')
                      /\ t' == 2 * t.
Proof.
  destruct (aggregate_inr _ _ _ _ Haggregate) as (resolved & Hres & ->).
  unfold aggregate. rewrite resolve_scale, Hres.
  eexists _, _. split; [reflexivity|].
  split; [now rewrite !dom_totals_of|].
  intros nutrient Hdom. pose proof Hdom as Hname. rewrite dom_totals_of in Hname.
  rewrite !lookup_totals_of.
  destruct (decide (nutrient ∈ nutrient_columns catalog)) as [_|Hout]; [|contradiction].
  pose proof (total_of_scale 2 nutrient resolved) as Hscaled.
  destruct (total_of resolved nutrient) as [t|] eqn:Ht.
  - destruct (total_of (scale_lines 2 resolved) nutrient) as [t'|]; [|contradiction].
    now exists t, t'.
  - destruct (total_unknown_inv _ _ Ht) as (line & Hin & Hnone).
    destruct (resolve_line_origin _ _ _ _ Hres Hin) as (name & Hmenu & Hfood).
    destruct (Hcomplete _ _ _ Hmenu Hfood nutrient Hdom) as [amount Hamount].
    congruence.
Qed.

End EngineProperties.

(** ** The calculation as the planner sees it *)

Section CalculationProperties.
Import Planner.

Variable numberToString : number -> string.

(** The status column agrees with the classification of the comparison
    report, for every comparison value the engine can send. *)
Lemma statusCell_classify (comparison : option Q) :
  statusCell (Engine.wire comparison) = Engine.status_label (Engine.classify comparison).
Proof.
  destruct comparison as [d|]; [|reflexivity].
  unfold Engine.wire, Engine.classify, statusCell, gt, lt, zero; simpl.
  rewrite <- (Qcompare_antisym d 0). now destruct (d ?= 0)%Q.
Qed.

(** Unknown dominates in the totals that are sent: a nutrient of the
    totals that some selected food has no value for is sent as null. *)
Lemma unknown_value_gives_null_total catalog menu items totals nutrient line resolved :
  Engine.aggregate catalog menu = inr (items, totals) ->
  Engine.resolve catalog menu = inr resolved ->
  In line resolved -> Engine.nutrients line.1 !! nutrient = None ->
  nutrient ∈ dom totals -> totals !! nutrient = Some None.
Proof.
  intros Hagg Hres Hin Hnone Hdom.
  destruct (aggregate_inr _ _ _ _ Hagg) as (resolved' & Hres' & ->).
  rewrite Hres in Hres'. injection Hres' as <-.
  rewrite dom_totals_of in Hdom. rewrite lookup_totals_of.
  destruct (decide (nutrient ∈ Engine.nutrient_columns catalog)); [|contradiction].
  now rewrite (total_unknown_dominates _ _ _ Hin Hnone).
Qed.

(** C2.  A menu with a food name that the catalog does not have fails the
    whole aggregation with [FoodNotFoundError] carrying such a name of the
    menu, so that no totals are returned; and the planner, on a response
    that is not ok or on a failed request, clears its calculation result. *)
Theorem missing_food_fails_whole_calculation
    (catalog : gmap string Engine.FoodRecord) (menu : list (string * Q))
    (Hmissing : exists name q, In (name, q) menu
                               /\ Engine.getFood catalog name = None) :
  (exists foodName,
     Engine.aggregate catalog menu = inl (Engine.FoodNotFoundError foodName)
     /\ (exists q, In (foodName, q) menu)
     /\ Engine.getFood catalog foodName = None)
  /\ (forall s detail statusText,
        let s' := calculateResponse (CalcNotOk detail statusText) s in
        calculationResult s' = None
        /\ message s' = "Error calculating nutrition: " +:+ or_else detail statusText)
  /\ (forall s error, calculationResult (calculateResponse (CalcThrew error) s) = None)
  /\ (forall server s,
        selectedFoods s <> [] -> selectedRdaProfile s <> "" ->
        (forall request data, server request <> CalcOk data) ->
        calculationResult (handleCalculateNutrition server s) = None).
Proof.
  split; [|split; [|split]].
  - destruct (resolve_missing catalog menu Hmissing) as (foodName & Hres & Hin & Hnone).
    exists foodName. unfold Engine.aggregate. now rewrite Hres.
  - intros s detail statusText. now split.
  - reflexivity.
  - intros server s Hfoods Hprofile Hnotok.
    unfold handleCalculateNutrition, calculateRequest.
    destruct (selectedFoods s) as [|food foods] eqn:Hsel; [contradiction|]. simpl.
    destruct (String.eqb_spec (selectedRdaProfile s) "") as [Heq|_]; [contradiction|].
    destruct (server _) as [data| |] eqn:Hserver; [|reflexivity..].
    now apply Hnotok in Hserver.
Qed.

Lemma null_entry_is_sent (values : gmap string (option Q)) nutrient :
  values !! nutrient = Some None ->
  In (nutrient, None) (Engine.wire_entries values).
Proof.
  intros Hv. apply list_elem_of_In. unfold Engine.wire_entries.
  apply list_elem_of_fmap. exists (nutrient, None). split; [reflexivity|].
  now apply elem_of_map_to_list.
Qed.

(** C4.  A nutrient total that is null stands for an unknown value of some
    selected food, is compared as null against every profile (whether or
    not the profile has a target for the nutrient), travels as null in
    the totals and in the comparison, and is shown as "N/A" in the
    amount column, as is the null comparison in the difference and status
    columns; the number zero is shown as "0.00" and "Meets Target"
    instead. *)
Theorem null_total_is_displayed_as_NA
    (catalog : gmap string Engine.FoodRecord) (menu : list (string * Q))
    (items : list Engine.ResolvedItem) (totals : gmap string (option Q))
    (nutrient : string)
    (Haggregate : Engine.aggregate catalog menu = inr (items, totals))
    (Hnull : totals !! nutrient = Some None) :
  (exists resolved line,
     Engine.resolve catalog menu = inr resolved /\ In line resolved
     /\ Engine.nutrients line.1 !! nutrient = None)
  /\ (forall profiles profileName,
        match Engine.compare profiles totals profileName with
        | inr comparison =>
            is_Some (Engine.getProfile profiles profileName)
            /\ comparison !! nutrient = Some None
            /\ Engine.classify (default None (comparison !! nutrient))
               = Engine.NotDeterminable
            /\ In (nutrient, None) (Engine.wire_entries comparison)
        | inl e =>
            Engine.getProfile profiles profileName = None
            /\ e = Engine.ProfileNotFoundError profileName
        end)
  /\ In (nutrient, None) (Engine.wire_entries totals)
  /\ (forall r, total_nutrients r ≡ₚ Engine.wire_entries totals ->
        In {| amount_nutrient := nutrient; amount_cell := "N/A" |}
           (totalsTable numberToString r))
  /\ (forall profiles profileName comparison r,
        Engine.compare profiles totals profileName = inr comparison ->
        nutrient_comparison r ≡ₚ Engine.wire_entries comparison ->
        In {| row_class := ""; row_nutrient := nutrient;
              difference_cell := "N/A"; status_cell := "N/A" |}
           (comparisonTable numberToString r))
  /\ (forall r i name, total_nutrients r !! i = Some (name, None) ->
        totalsTable numberToString r !! i
        = Some {| amount_nutrient := name; amount_cell := "N/A" |})
  /\ (forall r i name, nutrient_comparison r !! i = Some (name, None) ->
        comparisonTable numberToString r !! i
        = Some {| row_class := ""; row_nutrient := name;
                  difference_cell := "N/A"; status_cell := "N/A" |})
  /\ fixedOrNA numberToString (Some zero) = "0.00"
  /\ statusCell (Some zero) = "Meets Target".
Proof.
  assert (Hcompared : forall profile,
             merge Engine.difference totals (Engine.targets profile) !! nutrient
             = Some None).
  { intros profile. rewrite lookup_merge, Hnull.
    now destruct (Engine.targets profile !! nutrient). }
  destruct (aggregate_inr _ _ _ _ Haggregate) as (resolved & Hres & Htotals).
  split; [|split; [|split; [|split; [|split; [|split; [|split; [|split]]]]]]].
  - rewrite Htotals, lookup_totals_of in Hnull.
    destruct (decide (nutrient ∈ Engine.nutrient_columns catalog)); [|discriminate].
    injection Hnull as Hnull.
    destruct (total_unknown_inv _ _ Hnull) as (line & Hin & Hnone).
    now exists resolved, line.
  - intros profiles profileName. unfold Engine.compare.
    destruct (Engine.getProfile profiles profileName) as [profile|]; [|now split].
    split; [now eexists|]. split; [apply Hcompared|].
    split; [now rewrite Hcompared | apply null_entry_is_sent, Hcompared].
  - now apply null_entry_is_sent.
  - intros r Hr. unfold totalsTable.
    apply (in_map (fun '(n, amount) =>
                     {| amount_nutrient := n;
                        amount_cell := fixedOrNA numberToString amount |})
                  _ (nutrient, None)).
    apply list_elem_of_In. rewrite Hr. apply list_elem_of_In.
    now apply null_entry_is_sent.
  - intros profiles profileName comparison r Hcompare Hr.
    unfold Engine.compare in Hcompare.
    destruct (Engine.getProfile profiles profileName) as [profile|]; [|discriminate].
    injection Hcompare as <-. unfold comparisonTable.
    apply (in_map (fun '(n, diff) =>
                     {| row_class := rowClass diff; row_nutrient := n;
                        difference_cell := fixedOrNA numberToString diff;
                        status_cell := statusCell diff |})
                  _ (nutrient, None)).
    apply list_elem_of_In. rewrite Hr. apply list_elem_of_In.
    apply null_entry_is_sent, Hcompared.
  - intros r i name Hi. unfold totalsTable. now rewrite list_lookup_fmap, Hi.
  - intros r i name Hi. unfold comparisonTable. now rewrite list_lookup_fmap, Hi.
  - vm_compute. reflexivity.
  - reflexivity.
Qed.

End CalculationProperties.

(** * The properties on the sample data *)

Section Samples.
Import KitchenDashboard.

Lemma summary_partitions_items_sample :
  let sm := summary [rice_plan; orphan_plan] in
  (length (preparedItems sm) + length (unpreparedItems sm) = 2)%nat
  /\ (length (deliveredItems sm) + length (notDeliveredItems sm) = 2)%nat
  /\ In rice_item (List.filter (fun i => negb (prepared i)) (items rice_plan)).
Proof.
  destruct (summary_partitions_items [rice_plan; orphan_plan])
    as (_ & _ & Hprepared & Hdelivered & Hone).
  split; [exact Hprepared|]. split; [exact Hdelivered|].
  destruct (Hone rice_plan rice_item (or_introl eq_refl) (or_introl eq_refl))
    as [[(Hin & _) | (_ & Hin)] _].
  - apply filter_In in Hin as [_ Hflag]. discriminate Hflag.
  - exact Hin.
Defined.


Lemma status_update_sample :
  pending rice_item /\ id rice_item = 1
  /\ delivered (update_item 1 Delivered true rice_item) = true
  /\ prepared (update_item 1 Delivered true rice_item) = false.
Proof.
  assert (Hpending : pending rice_item) by (split; reflexivity).
  split; [exact Hpending|]. split; [reflexivity|].
  destruct (status_update_sets_only_named_flag 1 Delivered true PatchOk sample_dashboard)
    as [_ Hflags].
  exact (Hflags rice_item Hpending eq_refl).
Defined.

Lemma markPrepared_idempotent_sample :
  (forall it, In it (all_items sample_dashboard) -> id it = 2 -> prepared it = true)
  /\ handleStatusChange 2 Prepared true PatchOk sample_dashboard = sample_dashboard
  /\ handleStatusChange 1 Prepared true PatchOk
       (handleStatusChange 1 Prepared true PatchOk sample_dashboard)
     = handleStatusChange 1 Prepared true PatchOk sample_dashboard.
Proof.
  assert (Hprepared : forall it, In it (all_items sample_dashboard) ->
                                 id it = 2 -> prepared it = true).
  { intros it [<- | [<- | []]]; [discriminate | reflexivity]. }
  split; [exact Hprepared|]. split.
  - destruct (markPrepared_idempotent 2 sample_dashboard) as (_ & _ & Hsame).
    exact (Hsame Hprepared).
  - destruct (markPrepared_idempotent 1 sample_dashboard) as (Htwice & _).
    exact Htwice.
Defined.

End Samples.

Section PlannerSamples.
Import Planner.

Lemma runMenu_reachable events : forall s s',
  reachable parseDecimal showNumber s -> Forall (offered) events ->
  runMenu events s = Some s' -> reachable parseDecimal showNumber s'.
Proof.
  unfold runMenu. induction events as [|e events IH]; simpl; intros s s' Hs Hoff Hrun.
  - now injection Hrun as <-.
  - apply Forall_cons in Hoff as [He Hoff].
    destruct (menuStep parseDecimal showNumber s e) as [s1|] eqn:Hstep.
    + apply (IH s1 s'); [|assumption..]. now apply (reachable_step _ _ s e s1).
    + exfalso. clear -Hrun. induction events as [|e' events IH']; simpl in Hrun;
        [discriminate | now apply IH'].
Qed.

Lemma menu_quantities_sample :
  reachable parseDecimal showNumber half_rice_added
  /\ quantities_positive half_rice_added
  /\ getSelectedFoodQuantity "Rice"
       (handleFoodQuantityChange parseDecimal "Rice" "1.5" half_rice_added)
     = Fin (3 # 2)
  /\ handleFoodQuantityChange parseDecimal "Rice" "-1" half_rice_added
     = half_rice_added
  /\ handleFoodQuantityChange parseDecimal "Rice" "abc" half_rice_added
     = half_rice_added
  /\ selectedFoods (handleFoodQuantityChange parseDecimal "Rice" "0" half_rice_added)
     = [].
Proof.
  assert (Hreach : reachable parseDecimal showNumber half_rice_added).
  { apply (runMenu_reachable half_rice_events initialApp).
    - constructor.
    - repeat constructor.
    - vm_compute. reflexivity. }
  destruct (menu_quantities_stay_positive parseDecimal showNumber _ Hreach)
    as (Hpositive & _ & Hinput).
  split; [exact Hreach|]. split; [exact Hpositive|]. split; [|split; [|split]].
  - destruct (Hinput "Rice" "1.5") as (_ & _ & Hset).
    apply (Hset (3 # 2)); reflexivity.
  - destruct (Hinput "Rice" "-1") as (Hignored & _).
    apply Hignored. right. reflexivity.
  - destruct (Hinput "Rice" "abc") as (Hignored & _).
    apply Hignored. left. reflexivity.
  - destruct (Hinput "Rice" "0") as (_ & Hzero & _).
    exact (Hzero eq_refl 0%nat eq_refl).
Defined.

Lemma send_to_kitchen_sample :
  mealPlan plan_with_patient !! "Breakfast"
  = Some [ {| food_name := "Rice"; quantity := Fin 2 |} ]
  /\ kitchenRequest plan_with_patient
     = Send {| patient_id := 7; meal_plan := rice_breakfast |}
  /\ kitchenRequest initialApp
     = Stay (setMessage
               "Meal plan is empty. Please add items before sending to kitchen."
               initialApp).
Proof.
  assert (Hbreakfast : mealPlan plan_with_patient !! "Breakfast"
                       = Some [ {| food_name := "Rice"; quantity := Fin 2 |} ])
    by reflexivity.
  split; [exact Hbreakfast|]. split.
  - destruct (send_to_kitchen_needs_items_and_patient plan_with_patient) as [_ Hsome].
    destruct (Hsome _ _ Hbreakfast) as [Hsend _]; [discriminate|].
    apply (Hsend 7); [reflexivity | discriminate].
  - destruct (send_to_kitchen_needs_items_and_patient initialApp) as [Hempty _].
    apply Hempty. apply everyCategoryEmpty_true. vm_compute. reflexivity.
Defined.


End PlannerSamples.

Section EngineSamples.
Import Engine.
Local Open Scope Q_scope.

Lemma resolve_rice_and_curd :
  resolve sample_catalog rice_and_curd = inr [(rice, 2); (curd, 1 # 2)].
Proof. vm_compute. reflexivity. Qed.

Lemma resolve_rice_and_dal :
  resolve sample_catalog rice_and_dal = inr [(rice, 2); (dal, 1)].
Proof. vm_compute. reflexivity. Qed.

Lemma resolve_complete_rice_and_curd :
  resolve complete_catalog rice_and_curd = inr [(rice, 2); (curd, 1 # 2)].
Proof. vm_compute. reflexivity. Qed.

Lemma aggregate_doubles_sample :
  exists items totals items' totals',
    aggregate complete_catalog rice_and_curd = inr (items, totals)
    /\ aggregate complete_catalog (scale_menu 2 rice_and_curd) = inr (items', totals')
    /\ dom totals' = dom totals
    /\ exists t t', totals !! "calories" = Some (Some t)
                    /\ totals' !! "calories" = Some (Some t')
                    /\ t == 449 /\ t' == 2 * t.
Proof.
  set (resolved := [(rice, 2); (curd, 1 # 2)]).
  assert (Haggregate :
    aggregate complete_catalog rice_and_curd
    = inr (zip_with (fun line fq =>
                       {| item_name := line.1; item_quantity := line.2;
                          item_serving := serving_size fq.1 |})
                    rice_and_curd resolved,
           totals_of complete_catalog resolved)).
  { unfold aggregate. rewrite resolve_complete_rice_and_curd. reflexivity. }
  assert (Hnames : forall nutrient,
             nutrient ∈ dom (totals_of complete_catalog resolved) ->
             nutrient = "calories" \/ nutrient = "protein").
  { intros nutrient. rewrite dom_totals_of, elem_of_nutrient_columns.
    intros (name & food & Hfood & [amount Hamount]).
    assert (Hwhich : food = rice \/ food = curd).
    { unfold complete_catalog, upsertFoods in Hfood. cbn [foldl] in Hfood.
      apply lookup_insert_Some in Hfood as [[_ <-] | [_ Hfood]]; [now right|].
      apply lookup_insert_Some in Hfood as [[_ <-] | [_ Hfood]]; [now left|].
      rewrite lookup_empty in Hfood. discriminate Hfood. }
    destruct Hwhich as [-> | ->]; cbn [nutrients rice curd] in Hamount;
      (apply lookup_insert_Some in Hamount as [[<- _] | [_ Hamount]]; [now left|]);
      (apply lookup_insert_Some in Hamount as [[<- _] | [_ Hamount]]; [now right|]);
      rewrite lookup_empty in Hamount; discriminate Hamount. }
  assert (Hcomplete : forall name q food,
             In (name, q) rice_and_curd -> getFood complete_catalog name = Some food ->
             forall nutrient, nutrient ∈ dom (totals_of complete_catalog resolved) ->
                              is_Some (nutrients food !! nutrient)).
  { intros name q food Hin Hfood nutrient Hdom.
    destruct Hin as [Heq | [Heq | []]]; injection Heq as <- <-;
      vm_compute in Hfood; injection Hfood as <-;
      destruct (Hnames nutrient Hdom) as [-> | ->]; eexists; vm_compute; reflexivity. }
  destruct (aggregate_doubles_with_quantities _ _ _ _ Haggregate Hcomplete)
    as (items' & totals' & Hdouble & Hdom & Htwice).
  eexists _, _, items', totals'.
  split; [exact Haggregate|]. split; [exact Hdouble|]. split; [exact Hdom|].
  assert (Hcal : "calories" ∈ dom (totals_of complete_catalog resolved)).
  { apply elem_of_dom. eexists. vm_compute. reflexivity. }
  destruct (Htwice "calories" Hcal) as (t & t' & Ht & Ht' & Heq).
  exists t, t'. split; [exact Ht|]. split; [exact Ht'|]. split; [|exact Heq].
  vm_compute in Ht. injection Ht as <-. reflexivity.
Defined.

Lemma missing_food_sample :
  (exists name q, In (name, q) rice_and_soup /\ getFood sample_catalog name = None)
  /\ aggregate sample_catalog rice_and_soup = inl (FoodNotFoundError "Soup")
  /\ Planner.calculationResult
       (Planner.handleCalculateNutrition
          (fun _ => Planner.CalcNotOk (Some "Food 'Soup' not found") "Not Found")
          Planner.plan_with_patient)
     = None.
Proof.
  assert (Hmissing : exists name q, In (name, q) rice_and_soup
                                    /\ getFood sample_catalog name = None).
  { exists "Soup", 1. split; [right; left; reflexivity | vm_compute; reflexivity]. }
  destruct (missing_food_fails_whole_calculation sample_catalog rice_and_soup Hmissing)
    as ((foodName & Hfails & _) & _ & _ & Hcleared).
  split; [exact Hmissing|]. split.
  - rewrite Hfails. vm_compute in Hfails. injection Hfails as <-. reflexivity.
  - apply Hcleared; [discriminate | discriminate | intros request data; discriminate].
Defined.

Lemma null_total_sample :
  exists items totals comparison,
    aggregate sample_catalog rice_and_dal = inr (items, totals)
    /\ totals !! "fiber" = Some None
    /\ totals !! "calories" = Some (Some 550)
    /\ totals !! "protein" = Some (Some 17)
    /\ In ("fiber", None) (wire_entries totals)
    /\ compare sample_profiles totals "Adult-Male" = inr comparison
    /\ targets adult_male !! "fiber" = None
    /\ comparison !! "fiber" = Some None
    /\ comparison !! "calories" = Some (Some (-1450))
    /\ comparison !! "protein" = Some (Some (-33))
    /\ In ("fiber", None) (wire_entries comparison)
    /\ (exists items1 totals1,
          aggregate sample_catalog rice_alone = inr (items1, totals1)
          /\ totals1 !! "fiber" = Some None)
    /\ Planner.fixedOrNA Planner.showNumber None = "N/A"
    /\ Planner.fixedOrNA Planner.showNumber (Some zero) = "0.00".
Proof.
  set (resolved := [(rice, 2); (dal, 1)]).
  assert (Haggregate :
    aggregate sample_catalog rice_and_dal
    = inr (zip_with (fun line fq =>
                       {| item_name := line.1; item_quantity := line.2;
                          item_serving := serving_size fq.1 |})
                    rice_and_dal resolved,
           totals_of sample_catalog resolved)).
  { unfold aggregate. rewrite resolve_rice_and_dal. reflexivity. }
  assert (Hnull : totals_of sample_catalog resolved !! "fiber" = Some None)
    by (vm_compute; reflexivity).
  assert (Hcompare :
    compare sample_profiles (totals_of sample_catalog resolved) "Adult-Male"
    = inr (merge difference (totals_of sample_catalog resolved) (targets adult_male)))
    by reflexivity.
  pose proof (null_total_is_displayed_as_NA Planner.showNumber _ _ _ _ "fiber"
                Haggregate Hnull) as (_ & Hcompared & Hwire & _ & _ & _ & _ & Hzero & _).
  specialize (Hcompared sample_profiles "Adult-Male"). rewrite Hcompare in Hcompared.
  destruct Hcompared as (_ & Hfiber & _ & Hsent).
  eexists _, _, _. split; [exact Haggregate|]. split; [exact Hnull|].
  split; [vm_compute; reflexivity|]. split; [vm_compute; reflexivity|].
  split; [exact Hwire|]. split; [exact Hcompare|]. split; [reflexivity|].
  split; [exact Hfiber|].
  split; [vm_compute; reflexivity|]. split; [vm_compute; reflexivity|].
  split; [exact Hsent|]. split.
  - eexists _, _. split; [reflexivity|]. vm_compute. reflexivity.
  - split; [reflexivity | exact Hzero].
Defined.

End EngineSamples.

(** * Further properties of the kitchen dashboard *)

Section DashboardViewProperties.
Import KitchenDashboard DashboardView.

(** ** The summary blocks *)

(** The collapsed block of a summary list shows its first five entries and
    the expanded block all of them; the "Show More"/"Show Less" button is
    there exactly when the list has more than five entries, so that
    without a button nothing is hidden; "None" is shown exactly for the
    empty list; the count of the heading is that of the whole list. *)
Theorem renderItems_hides_only_behind_button
    (items : list SummaryEntry) (showAll : bool) :
  let b := renderItems items showAll in
  (body b = NoneParagraph <-> items = [])
  /\ (items <> [] ->
      body b = ItemLines (map itemLine (if showAll then items else take 5 items)))
  /\ (toggleButton b = None <-> (length items <= 5)%nat)
  /\ (toggleButton b = None -> items <> [] -> body b = ItemLines (map itemLine items))
  /\ (forall lines, body b = ItemLines lines ->
        length lines = if showAll then length items else Nat.min 5 (length items))
  /\ (forall label, toggleButton b = Some label ->
        label = if showAll then "Show Less" else "Show More")
  /\ (forall title, heading (summarySection title items showAll)
                    = title +:+ " (" +:+ pretty (length items) +:+ ")").
Proof.
  cbn zeta. unfold renderItems; cbn [body toggleButton].
  assert (Hbody : items <> [] ->
            (if (0 <? length (if showAll then items else take 5 items))%nat
             then ItemLines (map itemLine (if showAll then items else take 5 items))
             else NoneParagraph)
            = ItemLines (map itemLine (if showAll then items else take 5 items))).
  { intros Hne. destruct items as [|e items]; [contradiction|]. now destruct showAll. }
  split; [|split; [|split; [|split; [|split; [|split]]]]].
  - split.
    + intros H. destruct items as [|e items]; [reflexivity|].
      rewrite Hbody in H by discriminate. discriminate H.
    + intros ->. now destruct showAll.
  - exact Hbody.
  - destruct (Nat.ltb_spec 5 (length items)); split; intros H0;
      [discriminate | lia | lia | reflexivity].
  - intros Hnone Hne. rewrite Hbody by assumption.
    destruct (Nat.ltb_spec 5 (length items)); [discriminate|].
    destruct showAll; [reflexivity|]. now rewrite firstn_all2.
  - intros lines Hlines.
    assert (Hcase : items = [] \/ items <> [])
      by (destruct items; [left; reflexivity | right; discriminate]).
    destruct Hcase as [-> | Hne]; [destruct showAll; discriminate Hlines|].
    rewrite Hbody in Hlines by assumption. injection Hlines as <-.
    rewrite length_map. destruct showAll; [reflexivity|]. apply length_take.
  - intros label. destruct (5 <? length items)%nat; [|discriminate].
    now intros [= <-].
  - reflexivity.
Qed.

(** ** The plan cards and the summary *)



(** ** Grouping by category *)

Lemma groupStep_read (acc : gmap string (list MealPlanItem)) it :
  groupStep acc it
  = match read acc (meal_category it) with
    | OwnArray l => Some (<[meal_category it := l ++ [(fun it' => it') it]]> acc)
    | Undefined => Some (<[meal_category it := [(fun it' => it') it]]> acc)
    | FromPrototype => None
    end.
Proof. reflexivity. Qed.

Lemma groupByCategory_defined plan :
  card_keys_only plan ->
  exists groups,
    groupByCategory plan = Some groups
    /\ forall c,
         groups !! c
         = match List.filter (fun it => bool_decide (meal_category it = c)) (items plan) with
           | [] => None
           | it :: l => Some (it :: l)
           end.
Proof.
  intros Hkeys. unfold groupByCategory.
  destruct (push_fold_defined meal_category (fun it => it) groupStep groupStep_read
              (items plan) ∅ shadow_free_empty Hkeys)
    as (groups & Hfold & _ & Hlookup).
  exists groups. split; [assumption|].
  intros c. rewrite Hlookup, map_id, lookup_empty. reflexivity.
Qed.

Lemma groupByCategory_throws plan :
  groupByCategory plan = None
  <-> exists it, In it (items plan) /\ inherited (meal_category it) = true.
Proof.
  split.
  - intros Hnone.
    destruct (inherited_key_cases meal_category (items plan)) as [Hkeys | Hbad];
      [|assumption].
    destruct (groupByCategory_defined plan Hkeys) as (groups & Hsome & _). congruence.
  - intros Hbad. unfold groupByCategory.
    now apply (push_fold_throws meal_category (fun it => it) groupStep groupStep_read).
Qed.

Lemma members_nil_iff (its : list MealPlanItem) c :
  List.filter (fun it => bool_decide (meal_category it = c)) its = []
  <-> forall it, In it its -> meal_category it <> c.
Proof.
  split.
  - intros Hm it Hit Hc.
    assert (Hin : In it (List.filter (fun it => bool_decide (meal_category it = c)) its))
      by (apply filter_In; split; [assumption | now apply bool_decide_eq_true]).
    rewrite Hm in Hin. destruct Hin.
  - intros H. destruct (List.filter _ its) as [|it rest] eqn:E; [reflexivity|].
    assert (Hin : In it (List.filter (fun it => bool_decide (meal_category it = c)) its))
      by (rewrite E; now left).
    apply filter_In in Hin as [Hin Hc]. apply bool_decide_eq_true in Hc.
    now destruct (H it Hin).
Qed.

(** On a plan card whose items have ordinary category names, the group of
    a category holds exactly the items of the plan with that category, in
    the order of the plan, and a category without item has no group.
    The card cannot be rendered exactly when an item of the plan has as
    its category a name that plain objects inherit. *)
Theorem card_groups_are_the_items_by_category (plan : MealPlan) (c : string) :
  let members := List.filter (fun it => bool_decide (meal_category it = c)) (items plan) in
  (card_keys_only plan ->
     exists groups,
       groupByCategory plan = Some groups
       /\ card plan = Some {| card_class := cardClass plan; card_plan := plan_id plan;
                              card_patient := patient plan; card_groups := groups |}
       /\ (groups !! c = None <-> forall it, In it (items plan) -> meal_category it <> c)
       /\ (forall group, groups !! c = Some group -> group = members /\ group <> [])
       /\ (members <> [] -> groups !! c = Some members))
  /\ (groupByCategory plan = None
      <-> exists it, In it (items plan) /\ inherited (meal_category it) = true)
  /\ (card plan = None <-> groupByCategory plan = None).
Proof.
  cbn zeta. split; [|split].
  - intros Hkeys.
    destruct (groupByCategory_defined plan Hkeys) as (groups & Hsome & Hlookup).
    exists groups. split; [assumption|]. split; [unfold card; now rewrite Hsome|].
    rewrite Hlookup. pose proof (members_nil_iff (items plan) c) as Hnil.
    destruct (List.filter _ (items plan)) as [|it rest].
    + split; [|split].
      * split; [intros _; now apply Hnil | reflexivity].
      * discriminate.
      * contradiction.
    + split; [|split].
      * split; [discriminate | intros H; apply Hnil in H; discriminate H].
      * intros group [= <-]. now split.
      * reflexivity.
  - apply groupByCategory_throws.
  - unfold card. destruct (groupByCategory plan); split; (reflexivity || discriminate).
Qed.

Lemma flat_map_agree {A B : Type} (f g : A -> list B) (l : list A) :
  (forall x, In x l -> f x = g x) -> flat_map f l = flat_map g l.
Proof.
  induction l as [|x l IH]; intros H; simpl; [reflexivity|].
  rewrite (H x) by now left. f_equal. apply IH. intros y Hy. apply H. now right.
Qed.

Lemma contribution_from_card c plan :
  (is_Some (patient plan) -> card_keys_only plan) ->
  match patient plan with
  | Some p => map (augment p) (default [] (groupByCategory plan ≫= fun groups => groups !! c))
  | None => []
  end
  = contribution c plan.
Proof.
  intros Hkeys. unfold contribution. destruct (patient plan) as [p|]; [|reflexivity].
  destruct (groupByCategory_defined plan) as (groups & -> & Hlookup); [now apply Hkeys|].
  simpl. rewrite Hlookup. now destruct (List.filter _ (items plan)).
Qed.

Lemma no_patient_no_contribution plans c :
  (forall plan, In plan plans -> patient plan = None) ->
  flat_map (contribution c) plans = [].
Proof.
  intros Hnone. induction plans as [|plan plans IH]; simpl; [reflexivity|].
  unfold contribution at 1. rewrite (Hnone plan) by now left. simpl.
  apply IH. intros plan' Hin. apply Hnone. now right.
Qed.

(** When no grouped item has an inherited name as its category, the view
    by time has a section for a category exactly when some plan with a
    patient has an item of that category; its section is never empty and
    holds, plan after plan, what the cards of the plans with a patient
    group under that category, and with at least one plan the board shows
    these sections.  When no plan has a patient the view lists no section,
    and no message either if there are plans.  When computing the
    grouping throws, so does every render, in either view. *)
Theorem time_sections_are_the_card_groups (plans : list MealPlan) (c : string) :
  let fromCards :=
    flat_map (fun plan =>
                match patient plan with
                | Some p =>
                    map (augment p)
                        (default [] (groupByCategory plan ≫= fun groups => groups !! c))
                | None => []
                end) plans in
  let shown s :=
    mealPlans s = plans /\ plans <> [] /\ displayMode s = timeView
    /\ loading s = false /\ shownError s = None in
  (own_keys_only plans ->
     exists grouped,
       groupedMealItems plans = Some grouped
       /\ (forall plan, In plan plans -> is_Some (patient plan) ->
             is_Some (groupByCategory plan))
       /\ (forall section, grouped !! c = Some section ->
             section = fromCards /\ section <> [])
       /\ (grouped !! c = None <-> fromCards = [])
       /\ (forall s, shown s -> screen s = Some (Board (TimeSections grouped))))
  /\ ((forall plan, In plan plans -> patient plan = None) ->
      groupedMealItems plans = Some ∅
      /\ forall s, shown s -> screen s = Some (Board (TimeSections ∅)))
  /\ (groupedMealItems plans = None ->
      forall s, mealPlans s = plans -> screen s = None).
Proof.
  cbn zeta.
  assert (Hscreen : forall grouped s,
             groupedMealItems plans = Some grouped ->
             mealPlans s = plans /\ plans <> [] /\ displayMode s = timeView
             /\ loading s = false /\ shownError s = None ->
             screen s = Some (Board (TimeSections grouped))).
  { intros grouped s Hsome (Hs & Hne & Hmode & Hloading & Herror).
    unfold screen, listing. rewrite Hs, Hsome, Hloading, Herror, Hmode.
    destruct plans as [|plan plans']; [contradiction | reflexivity]. }
  split; [|split].
  - intros Hkeys.
    assert (Hsame : flat_map (fun plan =>
                match patient plan with
                | Some p =>
                    map (augment p)
                        (default [] (groupByCategory plan ≫= fun groups => groups !! c))
                | None => []
                end) plans = flat_map (contribution c) plans).
    { apply flat_map_agree. intros plan Hin. apply contribution_from_card.
      intros Hp it Hit. now apply (Hkeys plan it). }
    rewrite Hsame.
    destruct (groupedMealItems_defined plans Hkeys) as (grouped & Hsome & Hlookup).
    exists grouped. split; [assumption|]. split; [|split; [|split]].
    + intros plan Hin Hp.
      destruct (groupByCategory_defined plan) as (groups & Hgroups & _);
        [|now exists groups].
      intros it Hit. now apply (Hkeys plan it).
    + intros section. rewrite Hlookup.
      destruct (flat_map (contribution c) plans) as [|g gs]; [discriminate|].
      intros [= <-]. now split.
    + rewrite Hlookup.
      destruct (flat_map (contribution c) plans); split; (reflexivity || discriminate).
    + intros s. now apply Hscreen.
  - intros Hnone.
    assert (Hkeys : own_keys_only plans).
    { intros plan it Hin [p Hp]. rewrite (Hnone plan Hin) in Hp. discriminate Hp. }
    destruct (groupedMealItems_defined plans Hkeys) as (grouped & Hsome & Hlookup).
    assert (Hempty : grouped = ∅).
    { apply map_eq. intros k.
      now rewrite Hlookup, lookup_empty, (no_patient_no_contribution plans k Hnone). }
    subst grouped. split; [assumption|]. intros s. now apply Hscreen.
  - intros Hthrows s Hs. unfold screen. now rewrite Hs, Hthrows.
Qed.

(** ** How status updates compose *)

Lemma update_item_commute i t v j u w it :
  i <> j \/ t <> u ->
  update_item i t v (update_item j u w it) = update_item j u w (update_item i t v it).
Proof.
  intros Hdiff. unfold update_item.
  destruct (id it =? i) eqn:Ei, (id it =? j) eqn:Ej;
    destruct t, u; simpl; rewrite ?Ei, ?Ej; try reflexivity;
    apply Z.eqb_eq in Ei, Ej; destruct Hdiff as [H|H]; congruence.
Qed.

Lemma update_item_last_wins i t v w it :
  update_item i t v (update_item i t w it) = update_item i t v it.
Proof.
  unfold update_item. destruct (id it =? i) eqn:E.
  - destruct t; simpl; rewrite E; reflexivity.
  - now rewrite E.
Qed.

Lemma update_plans_compose (f g : MealPlanItem -> MealPlanItem) i t v j u w plans :
  (forall it, update_item i t v (update_item j u w it) = f it) ->
  update_plans i t v (update_plans j u w plans)
  = map (fun plan => {| plan_id := plan_id plan; timestamp := timestamp plan;
                        patient := patient plan; items := map f (items plan) |}) plans.
Proof.
  intros Hf. unfold update_plans. rewrite map_map. apply map_ext. intros plan.
  unfold update_plan; simpl. f_equal. rewrite map_map. now apply map_ext.
Qed.

(** Accepted status updates of different items, or of the two flags of one
    item, can be applied in either order: the dashboard ends in the same
    state. *)
Theorem status_updates_commute
    (i j : Z) (t u : StatusField) (v w : bool) (s : Dashboard)
    (Hdifferent : i <> j \/ t <> u) :
  handleStatusChange i t v PatchOk (handleStatusChange j u w PatchOk s)
  = handleStatusChange j u w PatchOk (handleStatusChange i t v PatchOk s).
Proof.
  unfold handleStatusChange; simpl. f_equal.
  rewrite (update_plans_compose (fun it => update_item i t v (update_item j u w it)) (fun it => it))
    by reflexivity.
  rewrite (update_plans_compose (fun it => update_item i t v (update_item j u w it)) (fun it => it) j u w i t v).
  - reflexivity.
  - intros it. symmetry. now apply update_item_commute.
Qed.

(** Ticking a status box and then setting it back restores the dashboard:
    when the flag of the items with the given id has the value [v0],
    an accepted update to any value followed by an accepted update to
    [v0] gives the state before the two. *)
Theorem status_update_undone_by_setting_back
    (itemId : Z) (type : StatusField) (v v0 : bool) (s : Dashboard)
    (Hbefore : forall it, In it (all_items s) -> id it = itemId ->
                          get_status type it = v0) :
  handleStatusChange itemId type v0 PatchOk
    (handleStatusChange itemId type v PatchOk s) = s.
Proof.
  destruct s as [plans ld err dt dm]. unfold handleStatusChange; simpl. f_equal.
  rewrite (update_plans_compose (update_item itemId type v0) (fun it => it))
    by (intros it; apply update_item_last_wins).
  fold (update_plan itemId type v0). fold (update_plans itemId type v0 plans).
  now apply update_plans_same.
Qed.

(** An accepted update for an id that no item of the board has changes
    nothing. *)
Theorem status_update_of_unknown_item_changes_nothing
    (itemId : Z) (type : StatusField) (v : bool) (s : Dashboard)
    (Hunknown : forall it, In it (all_items s) -> id it <> itemId) :
  handleStatusChange itemId type v PatchOk s = s.
Proof.
  destruct s as [plans ld err dt dm]. unfold handleStatusChange; simpl. f_equal.
  apply update_plans_same. intros it Hin Hid. now destruct (Hunknown it Hin).
Qed.

Lemma update_item_entry plan itemId type v it :
  entry (update_plan itemId type v plan) (update_item itemId type v it) = entry plan it.
Proof.
  unfold entry, update_item. destruct (id it =? itemId); [|reflexivity].
  now destruct type.
Qed.

Lemma flat_items_update itemId type v plans :
  flat_map items (update_plans itemId type v plans)
  = map (update_item itemId type v) (flat_map items plans).
Proof.
  unfold update_plans. induction plans as [|plan plans IH]; simpl; [reflexivity|].
  now rewrite IH, map_app.
Qed.

Lemma collect_length keep plans :
  length (collect keep plans) = length (List.filter keep (flat_map items plans)).
Proof.
  unfold collect. induction plans as [|plan plans IH]; simpl; [reflexivity|].
  now rewrite length_app, length_map, List.filter_app, length_app, IH.
Qed.

Lemma collect_other_flag itemId type v (keep : MealPlanItem -> bool) plans :
  (forall it, keep (update_item itemId type v it) = keep it) ->
  collect keep (update_plans itemId type v plans) = collect keep plans.
Proof.
  intros Hkeep. unfold collect, update_plans.
  induction plans as [|plan plans IH]; simpl; [reflexivity|].
  rewrite IH. f_equal.
  induction (items plan) as [|it its IHi]; simpl; [reflexivity|].
  rewrite Hkeep. destruct (keep it); simpl; [|exact IHi].
  f_equal; [|exact IHi].
  apply (update_item_entry plan itemId type v it).
Qed.

Lemma contribution_ids_update c itemId type v plan :
  map (fun g => id (item g)) (contribution c (update_plan itemId type v plan))
  = map (fun g => id (item g)) (contribution c plan).
Proof.
  unfold contribution, update_plan; cbn [patient items].
  destruct (patient plan) as [p|]; [|reflexivity].
  induction (items plan) as [|it its IHi]; [reflexivity|].
  assert (Hcat : meal_category (update_item itemId type v it) = meal_category it).
  { unfold update_item. destruct (id it =? itemId); [now destruct type | reflexivity]. }
  assert (Hid : id (update_item itemId type v it) = id it).
  { unfold update_item. destruct (id it =? itemId); [now destruct type | reflexivity]. }
  cbn [map List.filter]. rewrite Hcat.
  destruct (bool_decide (meal_category it = c)); [|exact IHi].
  cbn [map item augment]. now rewrite Hid, IHi.
Qed.

Lemma own_keys_only_update itemId type v plans :
  own_keys_only (update_plans itemId type v plans) <-> own_keys_only plans.
Proof.
  assert (Hcat : forall it, meal_category (update_item itemId type v it) = meal_category it).
  { intros it. unfold update_item. destruct (id it =? itemId); [now destruct type | reflexivity]. }
  unfold own_keys_only, update_plans, ordinary. split.
  - intros H plan it Hin Hp Hit. rewrite <- Hcat.
    apply (H (update_plan itemId type v plan)).
    + now apply in_map.
    + exact Hp.
    + unfold update_plan; cbn [items]. now apply in_map.
  - intros H plan' it' Hin Hp Hit.
    apply in_map_iff in Hin as (plan & <- & Hin). cbn [update_plan items patient] in Hp, Hit.
    apply in_map_iff in Hit as (it & <- & Hit). rewrite Hcat. now apply (H plan it).
Qed.

(** A status update never adds, removes, reorders or renames an item: the
    entries that the summary can list, the number of items and the ids in
    each section of the view by time are the same after an accepted
    update. *)
Theorem status_update_keeps_the_items
    (itemId : Z) (type : StatusField) (v : bool) (s : Dashboard) :
  let s' := handleStatusChange itemId type v PatchOk s in
  allEntries (mealPlans s') = allEntries (mealPlans s)
  /\ map id (all_items s') = map id (all_items s)
  /\ (forall c,
        (fun grouped => map (fun g => id (item g)) (group grouped c))
          <$> groupedMealItems (mealPlans s')
        = (fun grouped => map (fun g => id (item g)) (group grouped c))
            <$> groupedMealItems (mealPlans s))
  /\ map patient (mealPlans s') = map patient (mealPlans s).
Proof.
  cbn zeta. unfold handleStatusChange, all_items; cbn [mealPlans].
  split; [|split; [|split]].
  - unfold allEntries, update_plans. induction (mealPlans s) as [|plan plans IH]; simpl; [reflexivity|].
    rewrite IH. f_equal. rewrite map_map. apply map_ext. intros it.
    apply (update_item_entry plan itemId type v it).
  - rewrite flat_items_update, map_map. apply map_ext. intros it.
    unfold update_item. destruct (id it =? itemId); [now destruct type | reflexivity].
  - intros c. pose proof (own_keys_only_update itemId type v (mealPlans s)) as Hkeys.
    rewrite <- !groupedMealItems_defined_iff in Hkeys.
    destruct (groupedMealItems (update_plans itemId type v (mealPlans s)))
      as [grouped'|] eqn:Hafter;
      destruct (groupedMealItems (mealPlans s)) as [grouped|] eqn:Hbefore;
      [| destruct Hkeys as [Hkeys _]; destruct Hkeys as [? [=]]; now eexists
       | destruct Hkeys as [_ Hkeys]; destruct Hkeys as [? [=]]; now eexists
       | reflexivity].
    cbn [fmap option_fmap option_map]. f_equal.
    assert (Hsome : forall plans grouped,
               groupedMealItems plans = Some grouped ->
               group grouped c = flat_map (contribution c) plans).
    { intros plans g Hg.
      destruct (groupedMealItems_defined plans) as (g' & Hg' & Hlookup).
      - apply groupedMealItems_defined_iff. now exists g.
      - rewrite Hg in Hg'. injection Hg' as <-. apply group_of_lookup, Hlookup. }
    rewrite (Hsome _ _ Hafter), (Hsome _ _ Hbefore). unfold update_plans.
    clear. induction (mealPlans s) as [|plan plans IH]; simpl; [reflexivity|].
    rewrite !map_app, IH. f_equal. apply contribution_ids_update.
  - unfold update_plans. rewrite map_map. reflexivity.
Qed.

Lemma prepared_count_after_tick itemId (l : list MealPlanItem) :
  length (List.filter (fun it => prepared it) (map (update_item itemId Prepared true) l))
  = (length (List.filter (fun it => prepared it) l)
     + length (List.filter (fun it => (id it =? itemId)%Z && negb (prepared it)) l))%nat.
Proof.
  induction l as [|it l IH]; simpl; [reflexivity|].
  unfold update_item at 1. destruct (id it =? itemId) eqn:E; simpl.
  - destruct (prepared it); simpl; rewrite IH; lia.
  - destruct (prepared it); simpl; rewrite IH; lia.
Qed.

(** Ticking "Prepared" moves, in the counts of the summary, exactly the
    unprepared items with the given id from the unprepared to the prepared
    list, and leaves the delivered and the not-delivered list as they
    are. *)
Theorem prepared_tick_moves_the_counts (itemId : Z) (s : Dashboard) :
  let before := summary (mealPlans s) in
  let after := summary (mealPlans (handleStatusChange itemId Prepared true PatchOk s)) in
  (length (preparedItems after)
   = length (preparedItems before) + unpreparedWithId itemId (mealPlans s))%nat
  /\ (length (unpreparedItems after) + unpreparedWithId itemId (mealPlans s)
      = length (unpreparedItems before))%nat
  /\ deliveredItems after = deliveredItems before
  /\ notDeliveredItems after = notDeliveredItems before.
Proof.
  cbn zeta. unfold handleStatusChange; cbn [mealPlans].
  pose proof (summary_sizes := fun plans =>
    Permutation_length (collect_complement_perm (fun it => prepared it) plans)).
  assert (Hprepared :
    (length (preparedItems (summary (update_plans itemId Prepared true (mealPlans s))))
     = length (preparedItems (summary (mealPlans s))) + unpreparedWithId itemId (mealPlans s))%nat).
  { unfold summary; cbn [preparedItems]. rewrite !collect_length, flat_items_update.
    apply prepared_count_after_tick. }
  split; [exact Hprepared|]. split; [|split].
  - pose proof (summary_sizes (update_plans itemId Prepared true (mealPlans s))) as Hafter.
    pose proof (summary_sizes (mealPlans s)) as Hbefore.
    rewrite length_app in Hafter, Hbefore.
    assert (Hall : length (allEntries (update_plans itemId Prepared true (mealPlans s)))
                   = length (allEntries (mealPlans s))).
    { rewrite !allEntries_length, flat_items_update. apply length_map. }
    unfold summary in *; cbn [preparedItems unpreparedItems] in *. lia.
  - unfold summary; cbn [deliveredItems]. apply collect_other_flag.
    intros it. unfold update_item. now destruct (id it =? itemId).
  - unfold summary; cbn [notDeliveredItems]. apply collect_other_flag.
    intros it. unfold update_item. now destruct (id it =? itemId).
Qed.

(** ** The error screen *)







End DashboardViewProperties.

(** * Further properties of the planner *)

Section WorkspaceProperties.
Import Planner Workspace.

(** ** Session and navigation *)

Lemma roles_exclude s : hasRole s "dietician" = true -> hasRole s "kitchen_staff" = false.
Proof.
  unfold hasRole. destruct (userRole s) as [r|]; [|discriminate].
  intros H. apply String.eqb_eq in H. now subst r.
Qed.

(** The main area renders a section exactly when it is the current view
    and the header offers its button; every button of the header leads to
    its section; a user who is neither dietician nor kitchen staff gets no
    button and no section, and kitchen staff only the dashboard. *)
Theorem sections_follow_navigation (s : Session) :
  (forall v, shownSection s = Some v <-> currentView s = v /\ In v (navigation s))
  /\ (forall v, In v (navigation s) -> shownSection (setCurrentView v s) = Some v)
  /\ (hasRole s "dietician" = false -> hasRole s "kitchen_staff" = false ->
      navigation s = [] /\ shownSection s = None)
  /\ (hasRole s "kitchen_staff" = true ->
      navigation s = [dashboard]
      /\ (shownSection s = Some dashboard \/ shownSection s = None)).
Proof.
  unfold shownSection, navigation.
  assert (Hsetrole : forall v role, hasRole (setCurrentView v s) role = hasRole s role)
    by reflexivity.
  split; [|split; [|split]].
  - intros v. destruct (hasRole s "dietician") eqn:Hd.
    + rewrite (roles_exclude s Hd). simpl.
      destruct (currentView s); simpl; split;
        try discriminate; try (intros [= <-]; tauto);
        intros [<- Hin]; try reflexivity;
        destruct Hin as [H|[H|[H|[]]]]; discriminate H.
    + destruct (hasRole s "kitchen_staff"); simpl;
        destruct (currentView s); simpl; split;
          try discriminate; try (intros [= <-]; tauto);
          intros [<- Hin]; try reflexivity;
          try destruct Hin as [H|[]]; try discriminate H; try destruct Hin.
  - intros v. rewrite !Hsetrole. simpl.
    destruct (hasRole s "dietician"); simpl.
    + intros [<-|[<-|[<-|[]]]]; reflexivity.
    + destruct (hasRole s "kitchen_staff"); simpl; [|intros []].
      intros [<-|[]]. reflexivity.
  - intros -> ->. split; [reflexivity|]. now destruct (currentView s).
  - intros Hk. destruct (hasRole s "dietician") eqn:Hd.
    + rewrite (roles_exclude s Hd) in Hk. discriminate Hk.
    + rewrite Hk. split; [reflexivity|]. destruct (currentView s); auto.
Qed.

Lemma truthy_Some text : text <> "" -> truthy (Some text) = true.
Proof.
  intros H. unfold truthy. destruct (String.eqb_spec text ""); [contradiction | reflexivity].
Qed.

(** After a successful login the planner is the current view, but only a
    dietician sees it: for every other role the main area stays empty
    until a button of the header is pressed. *)
Theorem login_lands_on_the_planner_view
    (newToken role username : string) (st : Session * gmap string string)
    (Htoken : newToken <> "") :
  let s := redirectWhenLoggedIn (handleLoginSuccess newToken role username st).1 in
  currentView s = main
  /\ exists info,
       page s = WorkPage info (navigation s)
                         (if String.eqb role "dietician" then Some main else None).
Proof.
  cbn zeta. unfold handleLoginSuccess; cbn [fst].
  set (s0 := {| currentView := main; token := Some newToken; userRole := Some role;
                loggedInUsername := Some username |}).
  assert (Hs : redirectWhenLoggedIn s0 = s0).
  { unfold redirectWhenLoggedIn. now destruct (_ && _). }
  rewrite Hs. split; [reflexivity|].
  unfold page. cbn [token s0]. rewrite (truthy_Some _ Htoken).
  eexists. reflexivity.
Qed.

(** Logging out after a login leaves a logged-out session on the login
    form and removes the three keys from the storage, which is then the
    storage before the login if it had none of them; mounting the
    application on that storage shows the login form again. *)
Theorem logout_undoes_login
    (newToken role username : string) (st : Session * gmap string string) :
  let out := handleLogout (handleLoginSuccess newToken role username st) in
  out.1 = {| currentView := login; token := None; userRole := None;
             loggedInUsername := None |}
  /\ out.2 !! "authToken" = None /\ out.2 !! "userRole" = None
  /\ out.2 !! "username" = None
  /\ (forall key, key <> "authToken" -> key <> "userRole" -> key <> "username" ->
        out.2 !! key = st.2 !! key)
  /\ (st.2 !! "authToken" = None -> st.2 !! "userRole" = None ->
      st.2 !! "username" = None -> out.2 = st.2)
  /\ page out.1 = AuthPage login
  /\ page (mount out.2) = AuthPage login.
Proof.
  cbn zeta. unfold handleLogout, handleLoginSuccess; cbn [fst snd].
  set (storage := delete "username" (delete "userRole" (delete "authToken" _))).
  assert (Htoken : storage !! "authToken" = None).
  { unfold storage. rewrite lookup_delete_ne by discriminate.
    rewrite lookup_delete_ne by discriminate. apply lookup_delete_eq. }
  assert (Hrole : storage !! "userRole" = None).
  { unfold storage. rewrite lookup_delete_ne by discriminate. apply lookup_delete_eq. }
  assert (Huser : storage !! "username" = None) by apply lookup_delete_eq.
  assert (Hother : forall key, key <> "authToken" -> key <> "userRole" ->
                               key <> "username" -> storage !! key = st.2 !! key).
  { intros key H1 H2 H3. unfold storage.
    rewrite !lookup_delete_ne by congruence. now rewrite !lookup_insert_ne by congruence. }
  split; [reflexivity|]. split; [exact Htoken|]. split; [exact Hrole|].
  split; [exact Huser|]. split; [exact Hother|]. split; [|split].
  - intros H1 H2 H3. apply map_eq. intros key.
    destruct (decide (key = "authToken")) as [->|N1]; [congruence|].
    destruct (decide (key = "userRole")) as [->|N2]; [congruence|].
    destruct (decide (key = "username")) as [->|N3]; [congruence|].
    now apply Hother.
  - reflexivity.
  - unfold mount. rewrite Htoken, Hrole, Huser. reflexivity.
Qed.

(** A login survives a reload: mounting the application on the storage
    that a login with a non-empty token, role and user name has written
    gives the session of that login, on the planner view. *)
Theorem reload_restores_the_login
    (newToken role username : string) (st : Session * gmap string string)
    (Htoken : newToken <> "") (Hrole : role <> "") (Huser : username <> "") :
  mount (handleLoginSuccess newToken role username st).2
  = (handleLoginSuccess newToken role username st).1.
Proof.
  unfold handleLoginSuccess, mount; cbn [fst snd].
  rewrite lookup_insert_eq.
  rewrite (lookup_insert_ne _ "username" "userRole") by discriminate.
  rewrite lookup_insert_eq.
  rewrite (lookup_insert_ne _ "username" "authToken") by discriminate.
  rewrite (lookup_insert_ne _ "userRole" "authToken") by discriminate.
  rewrite lookup_insert_eq.
  unfold redirectWhenLoggedIn; cbn [token userRole loggedInUsername].
  now rewrite !truthy_Some by assumption.
Qed.

(** ** Patients *)

(** A successful fetch of a non-empty patient list selects its first
    patient, whoever was selected; a fetch that brings no patient, is
    refused or fails leaves the selection as it is, so that the plan is
    still sent for the patient selected before, also when the list no
    longer has that patient; without token nothing is fetched. *)
Theorem fetchPatients_selects_the_first_patient
    (s : Session) (response : PatientsResponse)
    (known : list KitchenDashboard.PatientRef) (a : App)
    (Htoken : truthy (token s) = true) :
  let after := fetchPatients s response (known, a) in
  (forall first rest, response = PatientsOk (first :: rest) ->
     after.1 = first :: rest
     /\ selectedPatient after.2 = Some (KitchenDashboard.patient_id first))
  /\ (response = PatientsOk [] ->
      after.1 = [] /\ after.2 = a /\ kitchenRequest after.2 = kitchenRequest a)
  /\ ((forall data, response <> PatientsOk data) -> after = (known, a))
  /\ mealPlan after.2 = mealPlan a /\ selectedFoods after.2 = selectedFoods a.
Proof.
  cbn zeta. unfold fetchPatients. rewrite Htoken. cbn [negb].
  split; [|split; [|split]].
  - intros first rest ->. now split.
  - intros ->. now repeat split.
  - intros Hnot. destruct response as [data| |]; [now destruct (Hnot data) | reflexivity..].
  - destruct response as [[|first rest]| |]; now split.
Qed.

Lemma fetchPatients_without_token s response st :
  truthy (token s) = false -> fetchPatients s response st = st.
Proof. intros H. unfold fetchPatients. now rewrite H. Qed.

(** ** Search *)

Lemma includes_empty text : includes text "" = true.
Proof.
  unfold includes. destruct text as [|c text]; simpl; [reflexivity|].
  reflexivity.
Qed.

Lemma filter_all {A : Type} (keep : A -> bool) (l : list A) :
  (forall x, In x l -> keep x = true) -> List.filter keep l = l.
Proof.
  induction l as [|x l IH]; intros H; simpl; [reflexivity|].
  rewrite (H x (or_introl eq_refl)). f_equal. apply IH. intros y Hy. apply H. now right.
Qed.

(** A search term that is empty after lowering shows every food, and an
    empty patient search term every patient; any search shows a
    selection of the list in its order, never an entry twice or one that
    is not in the list. *)
Theorem empty_search_shows_everything
    (toLowerCase : string -> string)
    (foods : list FoodItem) (known : list KitchenDashboard.PatientRef)
    (searchTerm : string) (Hempty : toLowerCase searchTerm = "") :
  filteredFoods toLowerCase foods searchTerm = foods
  /\ filteredPatients toLowerCase known "" = known
  /\ (forall term, sublist (filteredFoods toLowerCase foods term) foods)
  /\ (forall term, sublist (filteredPatients toLowerCase known term) known).
Proof.
  split; [|split; [|split]].
  - unfold filteredFoods. apply filter_all. intros food _.
    rewrite Hempty. apply includes_empty.
  - reflexivity.
  - intros term. unfold filteredFoods. induction foods as [|food rest IH]; simpl.
    + constructor.
    + destruct (includes _ _); [now constructor | now apply sublist_cons].
  - intros term. unfold filteredPatients. destruct (String.eqb term ""); [reflexivity|].
    induction known as [|p rest IH]; simpl.
    + constructor.
    + destruct (_ || _); [now constructor | now apply sublist_cons].
Qed.

(** ** Feedback after a calculation *)

(** The feedback request follows the stored calculation result: after a
    calculation that the server refused no feedback request is issued
    (only the message changes and the earlier feedback stays on the
    page); after a successful calculation the request carries the totals
    of that response; and when the calculation handler returned early
    (empty selection or no profile) the request is the one of the result
    stored before. *)
Theorem feedback_follows_the_stored_result
    (server : CalcRequest -> CalcResponse) (a : Advisor) :
  let a' := withApp (handleCalculateNutrition server) a in
  (forall request, calculateRequest (app a) = Send request ->
     (forall data, server request = CalcOk data ->
        feedbackRequest a'
        = Send {| nutritional_summary := total_nutrients data;
                  co_morbidities := coMorbidities a;
                  diet_preference := dietPreference a |})
     /\ ((forall data, server request <> CalcOk data) ->
         (exists s', feedbackRequest a' = Stay s')
         /\ forall advice,
              aiFeedback (handleGenerateAiFeedback advice a') = aiFeedback a
              /\ message (app (handleGenerateAiFeedback advice a'))
                 = "Please perform a nutritional calculation first."))
  /\ (forall s', calculateRequest (app a) = Stay s' ->
        calculationResult (app a') = calculationResult (app a)
        /\ forall request, feedbackRequest a = Send request ->
                           feedbackRequest a' = Send request).
Proof.
  cbn zeta. unfold withApp, handleCalculateNutrition, feedbackRequest; cbn [app coMorbidities dietPreference].
  split.
  - intros request ->. split.
    + intros data ->. reflexivity.
    + intros Hnot.
      assert (Hcleared : calculationResult (calculateResponse (server request) (app a)) = None).
      { destruct (server request) as [data| |] eqn:E; [now destruct (Hnot data) | reflexivity..]. }
      split.
      * rewrite Hcleared. now eexists.
      * intros advice. unfold handleGenerateAiFeedback, feedbackRequest; cbn [app].
        rewrite Hcleared. now split.
  - intros s' Hstay. rewrite Hstay.
    assert (Hsame : calculationResult s' = calculationResult (app a)).
    { unfold calculateRequest in Hstay.
      destruct (length (selectedFoods (app a)) =? 0)%nat; [now injection Hstay as <-|].
      destruct (String.eqb (selectedRdaProfile (app a)) ""); [now injection Hstay as <-|].
      discriminate Hstay. }
    rewrite Hsame. split; [reflexivity|]. intros request.
    destruct (calculationResult (app a)); [trivial | discriminate].
Qed.

(** ** Sending twice *)

(** Sending the plan to the kitchen never changes the plan, the selection
    or the patient, whatever the server answers: after a request has been
    sent, a second click sends the same request again. *)
Theorem send_to_kitchen_keeps_the_plan
    (server : KitchenRequest -> KitchenResponse) (s : App) :
  let s' := handleSendToKitchen server s in
  mealPlan s' = mealPlan s /\ selectedFoods s' = selectedFoods s
  /\ selectedPatient s' = selectedPatient s
  /\ calculationResult s' = calculationResult s
  /\ (forall request, kitchenRequest s = Send request ->
        kitchenRequest s' = Send request).
Proof.
  cbn zeta.
  assert (Hfields : mealPlan (handleSendToKitchen server s) = mealPlan s
                    /\ selectedFoods (handleSendToKitchen server s) = selectedFoods s
                    /\ selectedPatient (handleSendToKitchen server s) = selectedPatient s
                    /\ calculationResult (handleSendToKitchen server s) = calculationResult s).
  { unfold handleSendToKitchen, kitchenRequest.
    destruct (everyCategoryEmpty (mealPlan s)); [now repeat split|].
    destruct (selectedPatient s) as [patientId|] eqn:Hsel;
      [|simpl; rewrite Hsel; now repeat split].
    destruct (patientId =? 0); [simpl; rewrite Hsel; now repeat split|].
    unfold kitchenResponse. destruct (server _); simpl; rewrite Hsel; now repeat split. }
  destruct Hfields as (Hplan & Hfoods & Hpatient & Hresult).
  repeat split; try assumption.
  intros request Hsent. unfold kitchenRequest in *. rewrite Hplan, Hpatient.
  destruct (everyCategoryEmpty (mealPlan s)); [discriminate Hsent|].
  destruct (selectedPatient s) as [patientId|]; [|discriminate Hsent].
  destruct (patientId =? 0); [discriminate Hsent | exact Hsent].
Qed.

(** ** The class of a comparison row *)


End WorkspaceProperties.

Section MenuProperties.
Import Planner Workspace.

(** ** Names in the selection and in the plan *)

Lemma findIndex_None_names foodName foods :
  findIndex (named foodName) foods = None -> ~ In foodName (map food_name foods).
Proof.
  induction foods as [|x foods IH]; simpl; [tauto|].
  destruct (named foodName x) eqn:Hx; [discriminate|].
  destruct (findIndex (named foodName) foods); simpl; [discriminate|].
  intros _ [Heq | Hin]; [|now apply IH].
  unfold named in Hx. rewrite Heq, String.eqb_refl in Hx. discriminate Hx.
Qed.

Lemma findIndex_find foodName foods :
  findIndex (named foodName) foods = None <-> List.find (named foodName) foods = None.
Proof.
  induction foods as [|x foods IH]; simpl; [tauto|].
  destruct (named foodName x); [split; discriminate|].
  destruct (findIndex (named foodName) foods); simpl.
  - split; [discriminate|]. intros H. apply IH in H. discriminate H.
  - split; [intros _; now apply IH | reflexivity].
Qed.

Lemma names_after_alter qty foods : forall i,
  map food_name (alter (with_quantity qty) i foods) = map food_name foods.
Proof.
  induction foods as [|x foods IH]; intros [|i]; simpl; try reflexivity.
  f_equal. apply IH.
Qed.

Lemma names_after_delete (foods : list SelectedFood) i :
  NoDup (map food_name foods) -> NoDup (map food_name (delete i foods)).
Proof.
  intros H. change (map food_name (delete i foods)) with (food_name <$> delete i foods).
  rewrite list_fmap_delete. eapply sublist_NoDup; [exact H | apply sublist_delete].
Qed.

Lemma names_after_append foodName qty foods :
  findIndex (named foodName) foods = None -> NoDup (map food_name foods) ->
  NoDup (map food_name (foods ++ [ {| food_name := foodName; quantity := qty |} ])).
Proof.
  intros Hnone Hnd. rewrite map_app. apply NoDup_app. split; [exact Hnd|]. split.
  - intros name Hin Hlast. simpl in Hlast. apply list_elem_of_In in Hin.
    apply list_elem_of_singleton in Hlast. subst name.
    now apply (findIndex_None_names foodName foods).
  - simpl. apply NoDup_singleton.
Qed.

(** ** Adding to a category *)

Lemma find_other_after_alter foodName other qty foods : forall i,
  other <> foodName -> findIndex (named foodName) foods = Some i ->
  List.find (named other) (alter (with_quantity qty) i foods)
  = List.find (named other) foods.
Proof.
  intros i Hne. revert i.
  induction foods as [|x foods IH]; intros i; simpl; [discriminate|].
  destruct (named foodName x) eqn:Hx.
  - intros [= <-]. simpl. unfold named in *; simpl.
    apply String.eqb_eq in Hx.
    destruct (String.eqb_spec (food_name x) other) as [Heq|_]; [congruence | reflexivity].
  - destruct (findIndex (named foodName) foods) as [j|]; simpl; [|discriminate].
    intros [= <-]. simpl. destruct (named other x); [reflexivity | now apply IH].
Qed.

Lemma find_other_after_append foodName other qty foods :
  other <> foodName ->
  List.find (named other) (foods ++ [ {| food_name := foodName; quantity := qty |} ])
  = List.find (named other) foods.
Proof.
  intros Hne. induction foods as [|x foods IH]; simpl.
  - unfold named; simpl.
    destruct (String.eqb_spec foodName other) as [Heq|_]; [congruence | reflexivity].
  - destruct (named other x); [reflexivity | exact IH].
Qed.

Lemma addToCategory_defined foodName qty mealCategory
    (plan : gmap string (list SelectedFood)) foods :
  plan !! mealCategory = Some foods ->
  exists updated foods',
    addToCategory foodName qty mealCategory plan = Some updated
    /\ updated !! mealCategory = Some foods'
    /\ (exists entry, List.find (named foodName) foods' = Some entry
                      /\ quantity entry = qty)
    /\ (forall category, category <> mealCategory ->
          updated !! category = plan !! category).
Proof.
  intros Hfoods. unfold addToCategory. rewrite Hfoods.
  set (foods' := match findIndex (named foodName) foods with
                 | Some existingIndex => alter (with_quantity qty) existingIndex foods
                 | None => foods ++ [ {| food_name := foodName; quantity := qty |} ]
                 end).
  exists (<[mealCategory := foods']> plan), foods'.
  split; [reflexivity|]. split; [apply lookup_insert_eq|]. split.
  - subst foods'. destruct (findIndex (named foodName) foods) as [i|] eqn:Hi.
    + now apply find_after_alter.
    + eexists. split; [now apply find_after_append | reflexivity].
  - intros category Hne. now rewrite lookup_insert_ne.
Qed.

(** Adding a food to a category of the plan sets the quantity of that
    food there and nothing else: the entries of the other foods of the
    category and the other categories stay, and the category grows by
    one entry only when the food was not in it.  For a category that the
    plan does not have the update is undefined. *)
Theorem add_to_category_sets_one_entry
    (foodName : string) (qty : number) (mealCategory : string)
    (plan : gmap string (list SelectedFood)) :
  match plan !! mealCategory with
  | None => addToCategory foodName qty mealCategory plan = None
  | Some foods =>
      exists updated foods',
        addToCategory foodName qty mealCategory plan = Some updated
        /\ updated !! mealCategory = Some foods'
        /\ (exists entry, List.find (named foodName) foods' = Some entry
                          /\ quantity entry = qty)
        /\ (forall other, other <> foodName ->
              List.find (named other) foods' = List.find (named other) foods)
        /\ (forall category, category <> mealCategory ->
              updated !! category = plan !! category)
        /\ length foods' = match List.find (named foodName) foods with
                           | Some _ => length foods
                           | None => S (length foods)
                           end
  end.
Proof.
  unfold addToCategory. destruct (plan !! mealCategory) as [foods|]; [|reflexivity].
  set (foods' := match findIndex (named foodName) foods with
                 | Some existingIndex => alter (with_quantity qty) existingIndex foods
                 | None => foods ++ [ {| food_name := foodName; quantity := qty |} ]
                 end).
  exists (<[mealCategory := foods']> plan), foods'.
  split; [reflexivity|]. split; [apply lookup_insert_eq|]. subst foods'.
  destruct (findIndex (named foodName) foods) as [i|] eqn:Hi.
  - split; [now apply find_after_alter|].
    split; [intros other Hne; now apply (find_other_after_alter foodName)|].
    split; [intros category Hne; now rewrite lookup_insert_ne|].
    rewrite length_alter.
    destruct (List.find (named foodName) foods) eqn:Hfind; [reflexivity|].
    apply findIndex_find in Hfind. congruence.
  - split; [eexists; split; [now apply find_after_append | reflexivity]|].
    split; [intros other Hne; now apply find_other_after_append|].
    split; [intros category Hne; now rewrite lookup_insert_ne|].
    rewrite length_app. simpl.
    apply findIndex_find in Hi. rewrite Hi. lia.
Qed.

(** ** The menu form *)

Variable parseFloat : string -> number.
Variable numberToString : number -> string.

Lemma menuStep_keeps_names s e s' :
  menuStep parseFloat numberToString s e = Some s' -> names_unique s -> names_unique s'.
Proof.
  intros Hstep [Hsel Hplan]. destruct e as [foodName value | c | foodName]; simpl in Hstep.
  - injection Hstep as <-. unfold handleFoodQuantityChange.
    destruct (isNaN (parseFloat value) || lt (parseFloat value) zero); [now split|].
    split; [|exact Hplan]. cbn [selectedFoods setSelectedFoods]. unfold changeQuantity.
    destruct (findIndex (named foodName) (selectedFoods s)) as [i|] eqn:Hi.
    + destruct (strict_eq (parseFloat value) zero).
      * now apply names_after_delete.
      * now rewrite names_after_alter.
    + destruct (gt (parseFloat value) zero); [|exact Hsel].
      now apply names_after_append.
  - injection Hstep as <-. now split.
  - unfold handleAddToMeal in Hstep.
    destruct (le _ zero); [injection Hstep as <-; now split|].
    destruct (addToCategory _ _ _ _) as [updated|] eqn:Hadd; [|discriminate].
    injection Hstep as <-. split; [exact Hsel|]. cbn [mealPlan setMessage setMealPlan].
    unfold addToCategory in Hadd.
    destruct (mealPlan s !! selectedMealCategory s) as [categoryFoods|] eqn:Hcat; [|discriminate].
    injection Hadd as <-. intros category foods.
    destruct (decide (selectedMealCategory s = category)) as [<-|Hne].
    + rewrite lookup_insert_eq. intros [= <-]. specialize (Hplan _ _ Hcat).
      destruct (findIndex (named foodName) categoryFoods) as [i|] eqn:Hi.
      * now rewrite names_after_alter.
      * now apply names_after_append.
    + rewrite lookup_insert_ne by assumption. apply Hplan.
Qed.

(** In every state that the menu form leads to, no food is named twice in
    the selection, nor in any category of the meal plan: a quantity typed
    or added again replaces the entry of that food. *)
Theorem menu_names_stay_unique (s : App)
    (Hreach : reachable parseFloat numberToString s) :
  names_unique s.
Proof.
  induction Hreach as [|s e s' _ IH _ Hstep].
  - split; simpl; [constructor|].
    intros category foods H. unfold initialMealPlan in H.
    repeat (apply lookup_insert_Some in H as [[_ <-]|[_ H]]; [constructor|]).
    now rewrite lookup_empty in H.
  - now apply (menuStep_keeps_names s e s').
Qed.

(** The "Add to Meal" button copies the selected quantity: for a food
    without entry in the selection the click only sets the message "Quantity
    must be greater than 0 ..." and the plan stays; for a selected food
    the selected category then holds that food with the selected
    quantity, the other categories and the selection are unchanged.
    Typing a quantity never changes the plan. *)
Theorem add_click_copies_the_selected_quantity (s : App) (foodName : string)
    (Hreach : reachable parseFloat numberToString s) :
  match List.find (named foodName) (selectedFoods s) with
  | None =>
      menuStep parseFloat numberToString s (AddToMealClick foodName)
      = Some (setMessage "Quantity must be greater than 0 to add to meal plan." s)
  | Some selected =>
      exists s' foods',
        menuStep parseFloat numberToString s (AddToMealClick foodName) = Some s'
        /\ mealPlan s' !! selectedMealCategory s = Some foods'
        /\ (exists entry, List.find (named foodName) foods' = Some entry
                          /\ quantity entry = quantity selected)
        /\ (forall category, category <> selectedMealCategory s ->
              mealPlan s' !! category = mealPlan s !! category)
        /\ selectedFoods s' = selectedFoods s
  end
  /\ forall value,
       mealPlan (handleFoodQuantityChange parseFloat foodName value s) = mealPlan s.
Proof.
  destruct (reachable_invariant parseFloat numberToString s Hreach)
    as [[Hpositive _] [Hcategory Hkeys]].
  split.
  - cbn [menuStep]. unfold handleAddToMeal, getSelectedFoodQuantity.
    destruct (List.find (named foodName) (selectedFoods s)) as [selected|] eqn:Hfind.
    + apply find_some in Hfind as [Hin _].
      rewrite Forall_forall in Hpositive.
      assert (Hpos : gt (quantity selected) zero = true)
        by (apply Hpositive; now apply list_elem_of_In).
      destruct (gt_zero_number _ Hpos) as (_ & _ & _ & ->).
      destruct (Hkeys _ Hcategory) as [foods Hfoods].
      destruct (addToCategory_defined foodName (quantity selected)
                  (selectedMealCategory s) (mealPlan s) foods Hfoods)
        as (updated & foods' & -> & Hlook & Hentry & Hothers).
      eexists _, foods'. split; [reflexivity|]. now repeat split.
    + reflexivity.
  - intros value. unfold handleFoodQuantityChange.
    now destruct (isNaN (parseFloat value) || lt (parseFloat value) zero).
Qed.

End MenuProperties.

(** * Properties of the patient management *)

Section ManagementProperties.
Import KitchenDashboard PatientManagement.

(** Editing a listed patient whose id is not 0 and submitting sends a PUT
    to the address of that patient, also after fields have been typed
    over; when the server accepts, the form is emptied, the parent is
    told to reload, and the next submit is a POST to the collection; when
    it refuses, the form is kept and an error is set.  A patient with id
    0 is sent as a new patient. *)
Theorem edit_then_submit_updates_that_patient
    (p : PatientRef) (typed : list Field) (m : Management) :
  let editing := foldl (fun m' field => act m' (Type_ field)) (handleEdit p m) typed in
  (patient_id p <> 0 ->
     method (submitRequest editing) = PUT
     /\ url (submitRequest editing)
        = "http://localhost:8001/api/patients/" +:+ pretty (patient_id p))
  /\ (patient_id p = 0 ->
      method (submitRequest editing) = POST
      /\ url (submitRequest editing) = "http://localhost:8001/api/patients")
  /\ payload (submitRequest editing) = Some (form editing)
  /\ (typed = [] -> form_name (form editing) = name p
                    /\ form_hospital_id (form editing) = hospital_id p)
  /\ (let after := handleSubmit Ok editing in
      form after.1 = emptyForm /\ after.2 = true
      /\ submitRequest after.1
         = {| method := POST; url := "http://localhost:8001/api/patients";
              payload := Some emptyForm |})
  /\ (forall statusText,
        let after := handleSubmit (NotOk statusText) editing in
        form after.1 = form editing /\ after.2 = false
        /\ error after.1 = Some ("Failed to save patient: " +:+ statusText)).
Proof.
  cbn zeta.
  set (editing := foldl _ (handleEdit p m) typed).
  assert (Hid : form_id (form editing) = Some (patient_id p)).
  { subst editing. generalize (handleEdit p m) (eq_refl : form_id (form (handleEdit p m)) = Some (patient_id p)).
    induction typed as [|field typed IH]; intros m0 H0; simpl; [exact H0|].
    apply IH. now destruct field. }
  unfold submitRequest, formHasId. rewrite Hid.
  split; [|split; [|split; [|split; [|split]]]].
  - intros Hne. apply Z.eqb_neq in Hne. rewrite Hne. now split.
  - intros ->. now split.
  - now destruct (patient_id p =? 0).
  - intros Htyped. subst editing. rewrite Htyped. now split.
  - now repeat split.
  - intros statusText. now repeat split.
Qed.

Lemma act_keeps_list m a :
  patients (act m a) = patients m /\ loading (act m a) = loading m
  /\ (is_Some (error m) -> is_Some (error (act m a))).
Proof.
  destruct a as [p | field | response | patientId response]; simpl;
    try destruct response; simpl; repeat split; auto; intros _; now eexists.
Qed.

(** The management screen never changes its own patient list: after any
    sequence of edits, submits and deletes, accepted or not, it lists the
    patients fetched when it was mounted (a patient added, changed or
    deleted with success is not reflected); and once an error is set it
    stays set. *)
Theorem management_list_is_never_refreshed (actions : list Action) (m : Management) :
  patients (acts actions m) = patients m
  /\ loading (acts actions m) = loading m
  /\ (is_Some (error m) -> is_Some (error (acts actions m))).
Proof.
  unfold acts. revert m. induction actions as [|a actions IH]; intros m; simpl.
  - now repeat split.
  - destruct (act_keeps_list m a) as (Hp & Hl & He).
    destruct (IH (act m a)) as (Hp' & Hl' & He').
    rewrite Hp', Hl', Hp, Hl. repeat split; auto.
Qed.

End ManagementProperties.

(** * The further properties on sample data *)

Section DashboardViewSamples.
Import KitchenDashboard DashboardView.

Lemma renderItems_sample :
  seven_entries <> []
  /\ body (renderItems seven_entries false)
     = ItemLines (map itemLine (take 5 seven_entries))
  /\ toggleButton (renderItems seven_entries false) = Some "Show More"
  /\ toggleButton (renderItems (take 5 seven_entries) false) = None
  /\ body (renderItems (take 5 seven_entries) false)
     = ItemLines (map itemLine (take 5 seven_entries)).
Proof.
  assert (Hne : seven_entries <> []) by discriminate.
  assert (Hne5 : take 5 seven_entries <> []) by discriminate.
  destruct (renderItems_hides_only_behind_button seven_entries false)
    as (_ & Hbody & _ & _ & _ & _ & _).
  destruct (renderItems_hides_only_behind_button (take 5 seven_entries) false)
    as (_ & _ & Hbutton & Hall & _ & _ & _).
  assert (Hnone : toggleButton (renderItems (take 5 seven_entries) false) = None).
  { apply Hbutton. rewrite length_take. lia. }
  split; [exact Hne|]. split; [exact (Hbody Hne)|]. split; [reflexivity|].
  split; [exact Hnone|]. exact (Hall Hnone Hne5).
Defined.


Lemma card_groups_sample :
  card_keys_only two_dish_plan
  /\ List.filter (fun it => bool_decide (meal_category it = "Lunch")) (items two_dish_plan)
     <> []
  /\ (exists groups,
        groupByCategory two_dish_plan = Some groups
        /\ groups !! "Lunch" = Some [dal_item]
        /\ card_groups <$> card two_dish_plan = Some groups)
  /\ groupByCategory toString_plan = None
  /\ card toString_plan = None.
Proof.
  assert (Hkeys : card_keys_only two_dish_plan).
  { intros it [<- | [<- | []]]; reflexivity. }
  assert (Hlunch : List.filter (fun it => bool_decide (meal_category it = "Lunch"))
                               (items two_dish_plan) <> []).
  { vm_compute. intros H. discriminate H. }
  split; [exact Hkeys|]. split; [exact Hlunch|].
  destruct (card_groups_are_the_items_by_category two_dish_plan "Lunch")
    as (Hdefined & _ & _).
  destruct (Hdefined Hkeys) as (groups & Hgroups & Hcard & _ & _ & Hsome).
  destruct (card_groups_are_the_items_by_category toString_plan "Lunch")
    as (_ & Hthrows & Hnocard).
  assert (Hnone : groupByCategory toString_plan = None).
  { apply Hthrows. exists toString_item. split; [left|]; reflexivity. }
  split; [|split; [exact Hnone | now apply Hnocard]].
  exists groups. split; [exact Hgroups|]. split.
  - rewrite (Hsome Hlunch). vm_compute. reflexivity.
  - rewrite Hcard. reflexivity.
Defined.

Lemma time_sections_sample :
  (forall plan, In plan [orphan_plan] -> patient plan = None)
  /\ groupedMealItems [orphan_plan] = Some ∅
  /\ screen {| mealPlans := [orphan_plan]; loading := false; error := None;
               selectedDate := "2025-01-05"; displayMode := timeView |}
     = Some (Board (TimeSections ∅))
  /\ own_keys_only [rice_plan; orphan_plan]
  /\ (exists grouped,
        groupedMealItems [rice_plan; orphan_plan] = Some grouped
        /\ grouped !! "Breakfast" = Some [augment asha rice_item]
        /\ grouped !! "Lunch" = None)
  /\ screen {| mealPlans := [toString_plan]; loading := true; error := None;
               selectedDate := "2025-01-05"; displayMode := patientView |}
     = None.
Proof.
  assert (Hnone : forall plan, In plan [orphan_plan] -> patient plan = None).
  { intros plan [<- | []]. reflexivity. }
  assert (Hkeys : own_keys_only [rice_plan; orphan_plan]).
  { intros plan it [<- | [<- | []]] _ [<- | []]; reflexivity. }
  destruct (time_sections_are_the_card_groups [orphan_plan] "Lunch") as (_ & Hblank & _).
  destruct (Hblank Hnone) as [Hempty Hscreen].
  split; [exact Hnone|]. split; [exact Hempty|]. split.
  { apply Hscreen. repeat split. discriminate. }
  split; [exact Hkeys|]. split.
  - destruct (time_sections_are_the_card_groups [rice_plan; orphan_plan] "Lunch")
      as (Hdefined & _ & _).
    destruct (Hdefined Hkeys) as (grouped & Hgrouped & _ & _ & Hnosection & _).
    exists grouped. split; [exact Hgrouped|]. split.
    + vm_compute in Hgrouped. injection Hgrouped as <-. vm_compute. reflexivity.
    + apply Hnosection. vm_compute. reflexivity.
  - destruct (time_sections_are_the_card_groups [toString_plan] "Lunch") as (_ & _ & Hthrows).
    apply Hthrows; vm_compute; reflexivity.
Defined.

Lemma status_updates_commute_sample :
  (1 <> 2 \/ Prepared <> Delivered)
  /\ handleStatusChange 1 Prepared true PatchOk
       (handleStatusChange 2 Delivered true PatchOk sample_dashboard)
     = handleStatusChange 2 Delivered true PatchOk
         (handleStatusChange 1 Prepared true PatchOk sample_dashboard).
Proof.
  assert (Hdifferent : 1 <> 2 \/ Prepared <> Delivered) by (left; discriminate).
  split; [exact Hdifferent|].
  exact (status_updates_commute 1 2 Prepared Delivered true true sample_dashboard Hdifferent).
Defined.

Lemma status_update_undone_sample :
  (forall it, In it (all_items sample_dashboard) -> id it = 1 ->
              get_status Prepared it = false)
  /\ handleStatusChange 1 Prepared false PatchOk
       (handleStatusChange 1 Prepared true PatchOk sample_dashboard)
     = sample_dashboard.
Proof.
  assert (Hbefore : forall it, In it (all_items sample_dashboard) -> id it = 1 ->
                               get_status Prepared it = false).
  { intros it [<- | [<- | []]] Hid; [reflexivity | discriminate Hid]. }
  split; [exact Hbefore|].
  exact (status_update_undone_by_setting_back 1 Prepared true false sample_dashboard Hbefore).
Defined.

Lemma status_update_unknown_sample :
  (forall it, In it (all_items sample_dashboard) -> id it <> 99)
  /\ handleStatusChange 99 Delivered true PatchOk sample_dashboard = sample_dashboard.
Proof.
  assert (Hunknown : forall it, In it (all_items sample_dashboard) -> id it <> 99).
  { intros it [<- | [<- | []]]; discriminate. }
  split; [exact Hunknown|].
  exact (status_update_of_unknown_item_changes_nothing 99 Delivered true
           sample_dashboard Hunknown).
Defined.


End DashboardViewSamples.

Section WorkspaceSamples.
Import Planner Workspace.

Lemma navigation_sample :
  hasRole kitchen_session "kitchen_staff" = true
  /\ navigation kitchen_session = [dashboard]
  /\ shownSection kitchen_session = None
  /\ shownSection (setCurrentView dashboard kitchen_session) = Some dashboard.
Proof.
  assert (Hrole : hasRole kitchen_session "kitchen_staff" = true) by reflexivity.
  destruct (sections_follow_navigation kitchen_session) as (_ & Hbutton & _ & Hkitchen).
  destruct (Hkitchen Hrole) as [Hnav _].
  split; [exact Hrole|]. split; [exact Hnav|]. split; [reflexivity|].
  apply Hbutton. rewrite Hnav. left. reflexivity.
Defined.

Lemma login_sample :
  "t0k3n" <> ""
  /\ exists info,
       page (redirectWhenLoggedIn
               (handleLoginSuccess "t0k3n" "kitchen_staff" "ravi"
                  (mount ∅, ∅)).1)
       = WorkPage info [dashboard] None.
Proof.
  assert (Htoken : "t0k3n" <> "") by discriminate.
  split; [exact Htoken|].
  destruct (login_lands_on_the_planner_view "t0k3n" "kitchen_staff" "ravi" (mount ∅, ∅) Htoken)
    as [_ [info Hpage]].
  exists info. exact Hpage.
Defined.

Lemma logout_sample :
  (∅ : gmap string string) !! "authToken" = None
  /\ (handleLogout (handleLoginSuccess "t0k3n" "dietician" "asha" (mount ∅, ∅))).2 = ∅
  /\ page (handleLogout (handleLoginSuccess "t0k3n" "dietician" "asha" (mount ∅, ∅))).1
     = AuthPage login.
Proof.
  assert (Hnone : forall key, (∅ : gmap string string) !! key = None)
    by (intros key; apply lookup_empty).
  destruct (logout_undoes_login "t0k3n" "dietician" "asha" (mount ∅, ∅))
    as (_ & _ & _ & _ & _ & Hrestored & Hpage & _).
  split; [apply Hnone|]. split; [|exact Hpage].
  apply Hrestored; apply Hnone.
Defined.

Lemma reload_sample :
  "t0k3n" <> "" /\ "dietician" <> "" /\ "asha" <> ""
  /\ mount (handleLoginSuccess "t0k3n" "dietician" "asha" (mount ∅, ∅)).2
     = {| currentView := main; token := Some "t0k3n"; userRole := Some "dietician";
          loggedInUsername := Some "asha" |}.
Proof.
  assert (Htoken : "t0k3n" <> "") by discriminate.
  assert (Hrole : "dietician" <> "") by discriminate.
  assert (Huser : "asha" <> "") by discriminate.
  split; [exact Htoken|]. split; [exact Hrole|]. split; [exact Huser|].
  exact (reload_restores_the_login "t0k3n" "dietician" "asha" (mount ∅, ∅)
           Htoken Hrole Huser).
Defined.

Lemma fetchPatients_sample :
  truthy (token kitchen_session) = true
  /\ selectedPatient
       (fetchPatients kitchen_session (PatientsOk [KitchenDashboard.asha])
          ([], plan_without_patient)).2
     = Some 7
  /\ kitchenRequest
       (fetchPatients kitchen_session (PatientsOk []) ([KitchenDashboard.asha], plan_with_patient)).2
     = kitchenRequest plan_with_patient.
Proof.
  assert (Htoken : truthy (token kitchen_session) = true) by reflexivity.
  split; [exact Htoken|]. split.
  - destruct (fetchPatients_selects_the_first_patient kitchen_session
                (PatientsOk [KitchenDashboard.asha]) [] plan_without_patient Htoken)
      as (Hfirst & _).
    destruct (Hfirst KitchenDashboard.asha [] eq_refl) as [_ Hselected].
    exact Hselected.
  - destruct (fetchPatients_selects_the_first_patient kitchen_session
                (PatientsOk []) [KitchenDashboard.asha] plan_with_patient Htoken)
      as (_ & Hempty & _).
    destruct (Hempty eq_refl) as (_ & _ & Hrequest). exact Hrequest.
Defined.

Lemma search_sample :
  Engine.lower "" = ""
  /\ filteredFoods Engine.lower [idli] "" = [idli]
  /\ filteredFoods Engine.lower [idli] "DL" = [idli]
  /\ filteredFoods Engine.lower [idli] "dosa" = [].
Proof.
  assert (Hempty : Engine.lower "" = "") by reflexivity.
  destruct (empty_search_shows_everything Engine.lower [idli] [KitchenDashboard.asha] "" Hempty)
    as (Hall & _).
  split; [exact Hempty|]. split; [exact Hall|]. split; reflexivity.
Defined.

Lemma feedback_sample :
  calculateRequest (app sample_advisor)
  = Send {| selected_foods := [ {| food_name := "Rice"; quantity := Fin 2 |} ];
            req_rda_profile_name := "Adult-Male" |}
  /\ (let refused := withApp (handleCalculateNutrition
                                (fun _ => CalcNotOk (Some "Food not found") "Not Found"))
                             sample_advisor in
      aiFeedback (handleGenerateAiFeedback (fun _ => FeedbackOk "New advice.") refused)
      = "Earlier advice."
      /\ message (app (handleGenerateAiFeedback (fun _ => FeedbackOk "New advice.") refused))
         = "Please perform a nutritional calculation first.").
Proof.
  assert (Hsent : calculateRequest (app sample_advisor)
                  = Send {| selected_foods := [ {| food_name := "Rice"; quantity := Fin 2 |} ];
                            req_rda_profile_name := "Adult-Male" |}) by reflexivity.
  split; [exact Hsent|]. cbn zeta.
  destruct (feedback_follows_the_stored_result
              (fun _ => CalcNotOk (Some "Food not found") "Not Found") sample_advisor)
    as [Hsend _].
  destruct (Hsend _ Hsent) as [_ Hrefused].
  destruct Hrefused as [_ Hkept]; [intros data H; discriminate H|].
  exact (Hkept (fun _ => FeedbackOk "New advice.")).
Defined.

Lemma send_twice_sample :
  kitchenRequest plan_with_patient
  = Send {| patient_id := 7; meal_plan := rice_breakfast |}
  /\ kitchenRequest (handleSendToKitchen (fun _ => KitchenOk "Meal plan sent.")
                        plan_with_patient)
     = Send {| patient_id := 7; meal_plan := rice_breakfast |}.
Proof.
  assert (Hsent : kitchenRequest plan_with_patient
                  = Send {| patient_id := 7; meal_plan := rice_breakfast |})
    by (vm_compute; reflexivity).
  split; [exact Hsent|].
  destruct (send_to_kitchen_keeps_the_plan (fun _ => KitchenOk "Meal plan sent.")
              plan_with_patient) as (_ & _ & _ & _ & Hagain).
  exact (Hagain _ Hsent).
Defined.


Lemma half_rice_reachable : reachable parseDecimal showNumber half_rice_added.
Proof.
  apply (runMenu_reachable half_rice_events initialApp).
  - constructor.
  - repeat constructor.
  - vm_compute. reflexivity.
Qed.

Lemma menu_names_sample :
  reachable parseDecimal showNumber half_rice_added
  /\ NoDup (map food_name (selectedFoods half_rice_added)).
Proof.
  split; [exact half_rice_reachable|].
  exact (proj1 (menu_names_stay_unique parseDecimal showNumber half_rice_added
                  half_rice_reachable)).
Defined.

Lemma add_to_category_sample :
  rice_breakfast !! "Breakfast" = Some [ {| food_name := "Rice"; quantity := Fin 2 |} ]
  /\ (exists updated foods',
        addToCategory "Rice" (Fin 3) "Breakfast" rice_breakfast = Some updated
        /\ updated !! "Breakfast" = Some foods' /\ length foods' = 1%nat)
  /\ addToCategory "Rice" (Fin 3) "Brunch" rice_breakfast = None.
Proof.
  assert (Hlook : rice_breakfast !! "Breakfast"
                  = Some [ {| food_name := "Rice"; quantity := Fin 2 |} ])
    by (vm_compute; reflexivity).
  assert (Hmissing : rice_breakfast !! "Brunch" = None) by (vm_compute; reflexivity).
  split; [exact Hlook|]. split.
  - pose proof (add_to_category_sets_one_entry "Rice" (Fin 3) "Breakfast" rice_breakfast) as H.
    rewrite Hlook in H. destruct H as (updated & foods' & Hadd & Hnew & _ & _ & _ & Hlen).
    exists updated, foods'. split; [exact Hadd|]. split; [exact Hnew|]. exact Hlen.
  - pose proof (add_to_category_sets_one_entry "Rice" (Fin 3) "Brunch" rice_breakfast) as H.
    rewrite Hmissing in H. exact H.
Defined.

Lemma add_click_sample :
  reachable parseDecimal showNumber half_rice_added
  /\ menuStep parseDecimal showNumber half_rice_added (AddToMealClick "Dal")
     = Some (setMessage "Quantity must be greater than 0 to add to meal plan."
                        half_rice_added)
  /\ mealPlan (handleFoodQuantityChange parseDecimal "Rice" "0" half_rice_added)
     = mealPlan half_rice_added.
Proof.
  split; [exact half_rice_reachable|].
  destruct (add_click_copies_the_selected_quantity parseDecimal showNumber
              half_rice_added "Dal" half_rice_reachable) as [Hclick _].
  destruct (add_click_copies_the_selected_quantity parseDecimal showNumber
              half_rice_added "Rice" half_rice_reachable) as [_ Htyped].
  split; [exact Hclick | exact (Htyped "0")].
Defined.

End WorkspaceSamples.

Section ManagementSamples.
Import KitchenDashboard PatientManagement.

Lemma edit_then_submit_sample :
  patient_id asha <> 0
  /\ method (submitRequest (act (handleEdit asha listed_at_mount) (Type_ (Name "Asha Rao"))))
     = PUT
  /\ url (submitRequest (act (handleEdit asha listed_at_mount) (Type_ (Name "Asha Rao"))))
     = "http://localhost:8001/api/patients/7".
Proof.
  assert (Hid : patient_id asha <> 0) by discriminate.
  destruct (edit_then_submit_updates_that_patient asha [Name "Asha Rao"] listed_at_mount)
    as (Hput & _).
  destruct (Hput Hid) as [Hmethod Hurl].
  split; [exact Hid|]. split; [exact Hmethod | exact Hurl].
Defined.

Lemma management_list_sample :
  is_Some (error (act listed_at_mount (Delete 7 (NotOk "Forbidden"))))
  /\ patients (acts [Delete 7 Ok; Edit asha; Submit Ok] listed_at_mount) = [asha]
  /\ is_Some (error (acts [Submit Ok; Delete 7 Ok]
                        (act listed_at_mount (Delete 7 (NotOk "Forbidden"))))).
Proof.
  assert (Herror : is_Some (error (act listed_at_mount (Delete 7 (NotOk "Forbidden")))))
    by (eexists; reflexivity).
  destruct (management_list_is_never_refreshed [Delete 7 Ok; Edit asha; Submit Ok]
              listed_at_mount) as (Hlist & _).
  destruct (management_list_is_never_refreshed [Submit Ok; Delete 7 Ok]
              (act listed_at_mount (Delete 7 (NotOk "Forbidden")))) as (_ & _ & Hsticky).
  split; [exact Herror|]. split; [exact Hlist | exact (Hsticky Herror)].
Defined.

End ManagementSamples.
